(** * ECG monitor (gui.py): the streaming heart-rate pipeline

    A shallow embedding of the signal-processing core of [ECGApp]:
    the line parser and rolling buffer of [update_plot], the baseline
    filter, R-peak detector and heart-rate estimator of
    [update_heart_rate], and the state reset of [toggle_connection].

    Numbers.  Python integers are [Z].  The heart-rate estimator and the
    clock work on IEEE binary64 values, modelled bit for bit by Rocq's
    primitive floats.  So does the baseline filter of line 224,
    [baseline_filter64]: numpy does not fix the order in which a
    convolution accumulates its terms, so the filter takes the
    dot-product routine as an argument, and numpy's own loop,
    [F64.DOUBLE_dot], is the one concrete values are computed with.
    The peak detector is studied over the same filter in exact rational
    arithmetic ([Qc], [baseline_filter]): the rounding of the threshold
    and of the filter is not part of what is proved of the detector; on
    the signals it is run on here the two filters return the same
    values ([filters_agree_on_examples]).
    Amplitudes are taken within the range of numpy's int64.  Text is modelled after decoding,
    on the code points below 256: [str.strip] and [int] follow CPython's
    tables there; whitespace and decimal digits of Unicode above 255 are
    outside the model. *)

From Stdlib Require Import ZArith QArith Qcanon Qround Ascii String Bool Lia Sorted List.
From Stdlib Require Import Floats Uint63.
From Stdlib Require Import Reals Qreals Lra.
Import ListNotations.

#[local] Open Scope Z_scope.

(** ** Constants of the module *)

Definition SAMPLE_RATE : Z := 250.
Definition DISPLAY_TIME_SECONDS : Z := 6.
Definition MAX_POINTS : Z := SAMPLE_RATE * DISPLAY_TIME_SECONDS.
Definition FILTER_SIZE : Z := 25.
Definition MIN_HEART_RATE : Z := 40.
Definition MAX_HEART_RATE : Z := 200.
(** [deque(maxlen=5)] of [ECGApp.__init__]. *)
Definition HISTORY_LEN : Z := 5.

(** ** Python primitives *)

Module Py.

(** A decoded [str], as its sequence of characters (code points below 256). *)
Definition str := list ascii.

Definition of_string (s : string) : str := list_ascii_of_string s.

Definition newline : ascii := ascii_of_nat 10.

(** [str.isspace] on the code points below 256: TAB, LF, VT, FF, CR,
    the separators 0x1C..0x1F, the space, NEL (0x85) and NBSP (0xA0). *)
Definition isspace (c : ascii) : bool :=
  let n := nat_of_ascii c in
  (((9 <=? n) && (n <=? 13)) || ((28 <=? n) && (n <=? 32))
   || (n =? 133) || (n =? 160))%nat.

Fixpoint lstrip (s : str) : str :=
  match s with
  | [] => []
  | c :: s' => if isspace c then lstrip s' else s
  end.

Definition rstrip (s : str) : str := rev (lstrip (rev s)).

(** [s.strip()] *)
Definition strip (s : str) : str := lstrip (rstrip s).

(** [s.split(sep)] for a one-character separator: never the empty list. *)
Fixpoint split (sep : ascii) (s : str) : list str :=
  match s with
  | [] => [[]]
  | c :: s' =>
      if Ascii.eqb c sep then [] :: split sep s'
      else match split sep s' with
           | [] => [[c]]
           | line :: rest => (c :: line) :: rest
           end
  end.

Definition digit_value (c : ascii) : option Z :=
  let n := nat_of_ascii c in
  if ((48 <=? n) && (n <=? 57))%nat then Some (Z.of_nat n - 48) else None.

(** The digits of a decimal literal after its first digit: a single
    underscore may separate two digits. *)
Fixpoint int_digits (acc : Z) (s : str) : option Z :=
  match s with
  | [] => Some acc
  | c :: rest =>
      match digit_value c with
      | Some d => int_digits (10 * acc + d) rest
      | None =>
          if Ascii.eqb c "_" then
            match rest with
            | c' :: rest' =>
                match digit_value c' with
                | Some d => int_digits (10 * acc + d) rest'
                | None => None
                end
            | [] => None
            end
          else None
      end
  end.

Definition int_unsigned (s : str) : option Z :=
  match s with
  | c :: rest =>
      match digit_value c with
      | Some d => int_digits d rest
      | None => None
      end
  | [] => None
  end.

(** The whitespace [int] itself skips at both ends: C [isspace], after
    NEL and NBSP have been taken to a space. *)
Definition isspace_c (c : ascii) : bool :=
  let n := nat_of_ascii c in
  (((9 <=? n) && (n <=? 13)) || (n =? 32) || (n =? 133) || (n =? 160))%nat.

Fixpoint skip_space_c (s : str) : str :=
  match s with
  | [] => []
  | c :: s' => if isspace_c c then skip_space_c s' else s
  end.

(** [int(s)] in base 10; [None] is [ValueError].  No limit is put on
    the number of digits (CPython 3.11 and later refuse, by default,
    more than 4300 of them with a [ValueError]). *)
Definition int (s : str) : option Z :=
  match rev (skip_space_c (rev (skip_space_c s))) with
  | c :: rest =>
      if Ascii.eqb c "+" then int_unsigned rest
      else if Ascii.eqb c "-" then option_map Z.opp (int_unsigned rest)
      else int_unsigned (c :: rest)
  | [] => None
  end.

(** [d.append(x)] on a [deque(maxlen=maxlen)]: the oldest entries leave
    at the left once the length would exceed [maxlen]. *)
Definition deque_append (maxlen : Z) (d : list Z) (x : Z) : list Z :=
  let d' := d ++ [x] in
  skipn (Z.to_nat (Z.of_nat (length d') - maxlen)) d'.

(** [sum(l)] of integers. *)
Definition sum (l : list Z) : Z := fold_left Z.add l 0.

(** [range(a, b)] *)
Definition range (a b : Z) : list Z :=
  map (fun k => a + Z.of_nat k) (seq 0 (Z.to_nat (b - a))).

(** [l[i]] for an index inside the list. *)
Definition getitem {A} (dflt : A) (l : list A) (i : Z) : A :=
  nth (Z.to_nat i) l dflt.

(** [l[a:b]] for [0 <= a] and [0 <= b]. *)
Definition slice {A} (l : list A) (a b : Z) : list A :=
  firstn (Z.to_nat (b - a)) (skipn (Z.to_nat a) l).

(** Integer to binary64, for magnitudes below 2^63. *)
Definition float_of_int (z : Z) : float :=
  if z <? 0 then PrimFloat.opp (PrimFloat.of_uint63 (Uint63.of_Z (- z)))
  else PrimFloat.of_uint63 (Uint63.of_Z z).

(** [int(x)] of a float: truncation towards zero; [None] is the
    [OverflowError] or [ValueError] raised on an infinity or a NaN. *)
Definition int_of_float (x : float) : option Z :=
  match Prim2SF x with
  | S754_zero _ => Some 0
  | S754_finite s m e =>
      (* m * 2^e with the fraction dropped: a right shift when e < 0 *)
      let a := Z.shiftl (Z.pos m) e in
      Some (if s then - a else a)
  | S754_infinity _ => None
  | S754_nan => None
  end.

End Py.

(** ** numpy primitives, in exact arithmetic *)

Module Np.

#[local] Open Scope Qc_scope.

(** An integer taken to floating point. *)
Definition of_int (z : Z) : Qc := Q2Qc (inject_Z z).

(** An integer array taken to floating point, as [data - ...] does. *)
Definition of_ints (data : list Z) : list Qc := map of_int data.

Definition qsum (l : list Qc) : Qc := fold_left Qcplus l 0.

(** [np.ones(n) / d] *)
Definition ones_div (n : Z) (d : Z) : list Qc :=
  repeat (1 / of_int d) (Z.to_nat n).

(** Entry [k] of the full discrete convolution of [a] and [v]: the sum
    of [a[j] * v[k - j]] over the indices where both exist. *)
Definition convolve_at (a v : list Qc) (k : nat) : Qc :=
  qsum (map (fun j => nth j a 0 * nth (k - j) v 0) (seq 0 (S k))).

(** [np.convolve(a, v, mode='same')]: the longer operand comes first,
    and the result is the central part of the full convolution, as
    long as the longer operand; [None] is the [ValueError] raised on an
    empty operand. *)
Definition convolve_same (a v : list Qc) : option (list Qc) :=
  match a, v with
  | [], _ => None
  | _, [] => None
  | _, _ =>
      let '(a, v) := if (length a <? length v)%nat then (v, a) else (a, v) in
      let n_right := ((length v - 1) / 2)%nat in
      Some (map (fun i => convolve_at a v (i + n_right)) (seq 0 (length a)))
  end.

Fixpoint zip_sub (a b : list Qc) : list Qc :=
  match a, b with
  | x :: a', y :: b' => (x - y) :: zip_sub a' b'
  | _, _ => []
  end.

(** [a - b] on one-dimensional arrays: equal lengths, or one operand of
    length 1 is broadcast; [None] is the [ValueError] raised when the
    shapes do not match. *)
Definition subtract (a b : list Qc) : option (list Qc) :=
  if (length a =? length b)%nat then Some (zip_sub a b)
  else match a, b with
       | [x], _ => Some (map (fun y => x - y) b)
       | _, [y] => Some (map (fun x => x - y) a)
       | _, _ => None
       end.

(** [np.mean(x)] *)
Definition mean (x : list Qc) : Qc := qsum x / of_int (Z.of_nat (length x)).

(** The square of [np.std(x)]: the mean of the squared deviations. *)
Definition variance (x : list Qc) : Qc :=
  let m := mean x in mean (map (fun y => (y - m) * (y - m)) x).

Definition ltb (x y : Qc) : bool :=
  match x ?= y with Lt => true | _ => false end.

Definition eqb (x y : Qc) : bool := Qc_eq_bool x y.

(** [x > m + 1.5 * np.sqrt(var)], decided on the squares: the standard
    deviation is irrational in general. *)
Definition gt_mean_plus_1_5_std (x m var : Qc) : bool :=
  ltb m x && ltb (of_int 9 / of_int 4 * var) ((x - m) * (x - m)).

(** [max(l)] of a non-empty sequence. *)
Definition max (l : list Qc) : Qc :=
  match l with
  | [] => 0
  | x :: l' => fold_left (fun m y => if ltb m y then y else m) l' x
  end.

End Np.

(** ** numpy primitives, in binary64 *)

Module F64.

(** An [int64] taken to [float64]: exact below 2^53. *)
Definition of_int (z : Z) : float := Py.float_of_int z.

(** An integer array taken to [float64], as [np.convolve] and
    [data - ...] do against a [float64] operand. *)
Definition of_ints (data : list Z) : list float := map of_int data.

(** [np.ones(n) / d] *)
Definition ones_div (n : Z) (d : Z) : list float :=
  repeat (PrimFloat.div 1 (of_int d)) (Z.to_nat n).

(** numpy's own dot loop on doubles: [tmp = 0.0], then
    [tmp += a[k] * b[k]] from the first pair to the last.  A build on a
    BLAS library hands the pairs to its [ddot] instead, which may add
    them up in another order. *)
Definition DOUBLE_dot (a b : list float) : float :=
  fold_left (fun tmp ab => PrimFloat.add tmp (PrimFloat.mul (fst ab) (snd ab)))
            (combine a b) 0%float.

Section Dot.

(** The dot-product routine numpy dispatches to. *)
Variable dot : list float -> list float -> float.

(** Entry [i] of [np.correlate(a, w, mode='same')] for [a] at least as
    long as [w]: [w] is laid with [w[len(w) // 2]] on [a[i]], and the
    entry is the dot product of the parts of [a] and of [w] that
    overlap; what falls off [a] takes part in nothing. *)
Definition correlate_at (a w : list float) (i : nat) : float :=
  let n_left := (length w / 2)%nat in
  let lo := (i - n_left)%nat in
  let hi := Nat.min (length a) (i + length w - n_left) in
  dot (firstn (hi - lo) (skipn lo a))
      (firstn (hi - lo) (skipn (lo + n_left - i) w)).

(** [np.convolve(a, v, mode='same')]: the longer operand comes first,
    and the result is [np.correlate] of it with the other one
    reversed, as long as the longer operand; [None] is the
    [ValueError] raised on an empty operand. *)
Definition convolve_same (a v : list float) : option (list float) :=
  if ((length a =? 0) || (length v =? 0))%nat then None
  else
    let '(a, v) := if (length a <? length v)%nat then (v, a) else (a, v) in
    Some (map (correlate_at a (rev v)) (seq 0 (length a))).

End Dot.

Fixpoint zip_sub (a b : list float) : list float :=
  match a, b with
  | x :: a', y :: b' => PrimFloat.sub x y :: zip_sub a' b'
  | _, _ => []
  end.

(** [a - b] on one-dimensional arrays: equal lengths, or one operand of
    length 1 is broadcast; [None] is the [ValueError] raised when the
    shapes do not match. *)
Definition subtract (a b : list float) : option (list float) :=
  if (length a =? length b)%nat then Some (zip_sub a b)
  else match a, b with
       | [x], _ => Some (map (fun y => PrimFloat.sub x y) b)
       | _, [y] => Some (map (fun x => PrimFloat.sub x y) a)
       | _, _ => None
       end.

(** The rational a finite binary64 value stands for, in lowest terms. *)
Definition to_Q (x : float) : option Q :=
  match Prim2SF x with
  | S754_zero _ => Some 0%Q
  | S754_finite s m e =>
      let q := Qred (inject_Z (Z.pos m) * Qpower 2 e)%Q in
      Some (if s then Qopp q else q)
  | S754_infinity _ => None
  | S754_nan => None
  end.

End F64.

(** ** The baseline filter and the peak detector of [update_heart_rate] *)

(** [data - np.convolve(data, np.ones(FILTER_SIZE)/FILTER_SIZE, mode='same')]
    in binary64, with the dot-product routine [dot]. *)
Definition baseline_filter64 (dot : list float -> list float -> float)
           (data : list Z) : option (list float) :=
  match F64.convolve_same dot (F64.of_ints data) (F64.ones_div FILTER_SIZE FILTER_SIZE) with
  | None => None
  | Some baseline => F64.subtract (F64.of_ints data) baseline
  end.

(** [data - np.convolve(data, np.ones(FILTER_SIZE)/FILTER_SIZE, mode='same')]
    in exact arithmetic, for the peak detector. *)
Definition baseline_filter (data : list Z) : option (list Qc) :=
  match Np.convolve_same (Np.of_ints data) (Np.ones_div FILTER_SIZE FILTER_SIZE) with
  | None => None
  | Some baseline => Np.subtract (Np.of_ints data) baseline
  end.

(** The test under [for i in range(5, len(filtered_data)-5)]. *)
Definition is_peak (filtered_data : list Qc) (signal_mean signal_var : Qc) (i : Z) : bool :=
  let at_ := Py.getitem 0%Qc filtered_data in
  Np.gt_mean_plus_1_5_std (at_ i) signal_mean signal_var
  && Np.ltb (at_ (i - 1)) (at_ i)
  && Np.ltb (at_ (i + 1)) (at_ i)
  && (let window_start := Z.max 0 (i - 15) in
      let window_end := Z.min (Z.of_nat (length filtered_data)) (i + 15) in
      Np.eqb (at_ i) (Np.max (Py.slice filtered_data window_start window_end))).

(** The list [peaks] once the loop is over. *)
Definition find_peaks (filtered_data : list Qc) : list Z :=
  let signal_mean := Np.mean filtered_data in
  let signal_var := Np.variance filtered_data in
  filter (is_peak filtered_data signal_mean signal_var)
         (Py.range 5 (Z.of_nat (length filtered_data) - 5)).

(** ** The heart-rate estimate, in binary64 as the code computes it *)

(** [[peaks[i+1] - peaks[i] for i in range(len(peaks)-1)]] *)
Definition intervals_of (peaks : list Z) : list Z :=
  map (fun i => Py.getitem 0 peaks (i + 1) - Py.getitem 0 peaks i)
      (Py.range 0 (Z.of_nat (length peaks) - 1)).

(** [np.mean] of a list of integers: the integers add up without
    rounding (they stay far below 2^53), one division rounds. *)
Definition mean_of_ints (l : list Z) : float :=
  PrimFloat.div (Py.float_of_int (Py.sum l)) (Py.float_of_int (Z.of_nat (length l))).

(** [int(60 / (np.mean(intervals) / SAMPLE_RATE))]; [None] when [int]
    raises, on an infinite or undefined quotient. *)
Definition heart_rate_of (peaks : list Z) : option Z :=
  let intervals := intervals_of peaks in
  let avg_interval_sec := PrimFloat.div (mean_of_ints intervals) (Py.float_of_int SAMPLE_RATE) in
  Py.int_of_float (PrimFloat.div (Py.float_of_int 60) avg_interval_sec).

(** [int(sum(h) / len(h))]; [None] is [ZeroDivisionError]. *)
Definition int_mean (h : list Z) : option Z :=
  if Z.of_nat (length h) =? 0 then None
  else Py.int_of_float
         (PrimFloat.div (Py.float_of_int (Py.sum h)) (Py.float_of_int (Z.of_nat (length h)))).

(** ** The application state *)

(** The text of [hr_label]: "Heart Rate: -- BPM" or "Heart Rate: {avg_hr} BPM". *)
Inductive HrText := HrUnavailable | HrBpm (avg_hr : Z).

Inductive Color := Blue | Red | Green.

(** The text of [signal_quality_label]: "--", "Lead Off" or "Good". *)
Inductive QualityText := QualityUnknown | QualityLeadOff | QualityGood.

(** The messages handed to [log_debug]. *)
Inductive DebugMsg := Connecting | ConnectionError | UpdateError | HeartRateError.

Record ECGApp := mkApp {
  serial_open : bool;              (* self.serial is not None and self.serial.is_open *)
  timer_active : bool;             (* self.timer is running *)
  data_buffer : list Z;            (* deque(maxlen=MAX_POINTS) *)
  last_update_time : float;
  data_count : Z;
  heart_rate_history : list Z;     (* deque(maxlen=5) *)
  hr_label : HrText;
  hr_style : Color;
  signal_quality_label : QualityText;
  plot_curve : list Z;             (* the samples last given to plot_curve.setData;
                                      their time values depend on the length only *)
  debug_log : list DebugMsg;
  heart_rate_runs : nat            (* ghost: how often update_heart_rate has been entered *)
}.

(** [ECGApp.__init__], before the optional auto-connect, which is one
    [toggle_connection]. *)
Definition init (t0 : float) : ECGApp :=
  mkApp false false [] t0 0 [] HrUnavailable Green QualityUnknown [] [] 0.

Definition log_debug (m : DebugMsg) (app : ECGApp) : ECGApp :=
  mkApp (serial_open app) (timer_active app) (data_buffer app) (last_update_time app)
        (data_count app) (heart_rate_history app) (hr_label app) (hr_style app)
        (signal_quality_label app) (plot_curve app) (debug_log app ++ [m])
        (heart_rate_runs app).

Definition set_hr_label (t : HrText) (c : Color) (app : ECGApp) : ECGApp :=
  mkApp (serial_open app) (timer_active app) (data_buffer app) (last_update_time app)
        (data_count app) (heart_rate_history app) t c
        (signal_quality_label app) (plot_curve app) (debug_log app)
        (heart_rate_runs app).

Definition set_history (h : list Z) (app : ECGApp) : ECGApp :=
  mkApp (serial_open app) (timer_active app) (data_buffer app) (last_update_time app)
        (data_count app) h (hr_label app) (hr_style app)
        (signal_quality_label app) (plot_curve app) (debug_log app)
        (heart_rate_runs app).

Definition enter_heart_rate (app : ECGApp) : ECGApp :=
  mkApp (serial_open app) (timer_active app) (data_buffer app) (last_update_time app)
        (data_count app) (heart_rate_history app) (hr_label app) (hr_style app)
        (signal_quality_label app) (plot_curve app) (debug_log app)
        (S (heart_rate_runs app)).

Definition set_ingested (buf : list Z) (q : QualityText) (app : ECGApp) : ECGApp :=
  mkApp (serial_open app) (timer_active app) buf (last_update_time app)
        (data_count app) (heart_rate_history app) (hr_label app) (hr_style app)
        q (plot_curve app) (debug_log app) (heart_rate_runs app).

Definition set_plot (n : Z) (data_array : list Z) (app : ECGApp) : ECGApp :=
  mkApp (serial_open app) (timer_active app) (data_buffer app) (last_update_time app)
        n (heart_rate_history app) (hr_label app) (hr_style app)
        (signal_quality_label app) data_array (debug_log app) (heart_rate_runs app).

Definition set_second (now : float) (app : ECGApp) : ECGApp :=
  mkApp (serial_open app) (timer_active app) (data_buffer app) now
        0 (heart_rate_history app) (hr_label app) (hr_style app)
        (signal_quality_label app) (plot_curve app) (debug_log app) (heart_rate_runs app).

(** ** [update_heart_rate] *)

Definition style_of (avg_hr : Z) : Color :=
  if avg_hr <? 60 then Blue else if 100 <? avg_hr then Red else Green.

(** Lines 242-263: from the peak list to the label and the history. *)
Definition report_heart_rate (peaks : list Z) (app : ECGApp) : ECGApp :=
  if 2 <=? Z.of_nat (length peaks) then
    match heart_rate_of peaks with
    | None => log_debug HeartRateError app
    | Some heart_rate =>
        if (MIN_HEART_RATE <=? heart_rate) && (heart_rate <=? MAX_HEART_RATE) then
          let app := set_history
                       (Py.deque_append HISTORY_LEN (heart_rate_history app) heart_rate) app in
          match int_mean (heart_rate_history app) with
          | None => log_debug HeartRateError app
          | Some avg_hr => set_hr_label (HrBpm avg_hr) (style_of avg_hr) app
          end
        else set_hr_label HrUnavailable (hr_style app) app
    end
  else set_hr_label HrUnavailable (hr_style app) app.

Definition update_heart_rate (data : list Z) (app : ECGApp) : ECGApp :=
  let app := enter_heart_rate app in
  match baseline_filter data with
  | None => log_debug HeartRateError app
  | Some filtered_data => report_heart_rate (find_peaks filtered_data) app
  end.

(** ** [update_plot] *)

(** What the serial port holds at a tick: the waiting bytes, decoded,
    or a [read] that raises. *)
Inductive SerialInput := Waiting (raw_data : Py.str) | ReadFails.

(** The locals of the loop over the lines. *)
Record Ingest := mkIngest {
  buffer : list Z;
  new_data_count : Z;
  lead_off_detected : bool
}.

(** One turn of [for line in lines]. *)
Definition ingest_line (st : Ingest) (line : Py.str) : Ingest :=
  let line := Py.strip line in
  match line with
  | [] => st
  | _ =>
      match Py.int line with
      | Some value =>
          if value =? -1 then mkIngest (buffer st) (new_data_count st) true
          else mkIngest (Py.deque_append MAX_POINTS (buffer st) value)
                        (new_data_count st + 1) (lead_off_detected st)
      | None => st
      end
  end.

Definition ingest (raw_data : Py.str) (buf : list Z) : Ingest :=
  let lines := Py.split Py.newline (Py.strip raw_data) in
  fold_left ingest_line lines (mkIngest buf 0 false).

Definition update_plot (input : SerialInput) (now : float) (app : ECGApp) : ECGApp :=
  if negb (serial_open app) then app
  else match input with
  | ReadFails => log_debug UpdateError app
  | Waiting raw_data =>
      if Z.of_nat (length raw_data) <=? 0 then app
      else
        let r := ingest raw_data (data_buffer app) in
        let app := set_ingested (buffer r)
                     (if lead_off_detected r then QualityLeadOff else QualityGood) app in
        if 0 <? new_data_count r then
          let data_array := data_buffer app in
          let app := set_plot (data_count app + new_data_count r) data_array app in
          let elapsed := PrimFloat.sub now (last_update_time app) in
          if PrimFloat.leb 1 elapsed then
            let app :=
              if negb (lead_off_detected r) && (SAMPLE_RATE <=? Z.of_nat (length data_array))
              then update_heart_rate data_array app else app in
            set_second now app
          else app
        else app
  end.

(** ** [toggle_connection] *)

(** How opening the port goes: [serial.Serial] raises, or
    [reset_input_buffer] raises on the opened port, or both succeed. *)
Inductive OpenOutcome := OpenFails | ResetFails | Opened.

Definition toggle_connection (outcome : OpenOutcome) (now : float) (app : ECGApp) : ECGApp :=
  if negb (serial_open app) then
    let app := log_debug Connecting app in
    match outcome with
    | OpenFails => log_debug ConnectionError app
    | ResetFails =>
        log_debug ConnectionError
          (mkApp true (timer_active app) (data_buffer app) (last_update_time app)
                 (data_count app) (heart_rate_history app) (hr_label app) (hr_style app)
                 (signal_quality_label app) (plot_curve app) (debug_log app)
                 (heart_rate_runs app))
    | Opened =>
        mkApp true true [] now 0 [] (hr_label app) (hr_style app)
              (signal_quality_label app) (plot_curve app) (debug_log app)
              (heart_rate_runs app)
    end
  else
    mkApp false false (data_buffer app) (last_update_time app)
          (data_count app) (heart_rate_history app) (hr_label app) (hr_style app)
          (signal_quality_label app) (plot_curve app) (debug_log app)
          (heart_rate_runs app).

(** The states the application can be in while its window is open:
    [__init__], then any sequence of button presses and of timer ticks
    while the timer runs.  [closing], below, goes on from there. *)
Inductive reachable : ECGApp -> Prop :=
| reach_init : forall t0, reachable (init t0)
| reach_toggle : forall outcome now app,
    reachable app -> reachable (toggle_connection outcome now app)
| reach_tick : forall input now app,
    reachable app -> timer_active app = true -> reachable (update_plot input now app).

(** ** [closeEvent] *)

(** The port is closed if it is open; the timer is not stopped. *)
Definition closeEvent (app : ECGApp) : ECGApp :=
  if serial_open app then
    mkApp false (timer_active app) (data_buffer app) (last_update_time app)
          (data_count app) (heart_rate_history app) (hr_label app) (hr_style app)
          (signal_quality_label app) (plot_curve app) (debug_log app)
          (heart_rate_runs app)
  else app.

(** The states once the window has been closed: [closeEvent] in a
    reachable state, then the ticks of the timer it leaves running. *)
Inductive closing : ECGApp -> Prop :=
| closing_event : forall app, reachable app -> closing (closeEvent app)
| closing_tick : forall input now app,
    closing app -> timer_active app = true -> closing (update_plot input now app).

(** ** The baseline filter as a windowed mean *)

(** The sum of the samples at distance at most 12 from index [i] that
    exist in [data]. *)
Definition window_sum (data : list Z) (i : Z) : Z :=
  Py.sum (Py.slice data (Z.max 0 (i - 12)) (Z.min (Z.of_nat (length data)) (i + 13))).

(** How many such samples there are in a window of [n] samples. *)
Definition window_count (n i : Z) : Z := Z.min n (i + 13) - Z.max 0 (i - 12).

(** One second of a constant signal at 2000. *)
Definition data_constant : list Z := repeat 2000 250.

(** One second of a constant signal at 4095, the top of the 12-bit range. *)
Definition data_constant_4095 : list Z := repeat 4095 250.

(** The filtered window of [data] in binary64, when the filter does not
    raise. *)
Definition filtered64_of (dot : list float -> list float -> float)
           (data : list Z) : list float :=
  match baseline_filter64 dot data with
  | Some filtered_data => filtered_data
  | None => []
  end.

(** ** The estimator as the specification words it *)

(** Consecutive index deltas. *)
Fixpoint deltas (peaks : list Z) : list Z :=
  match peaks with
  | a :: (b :: _) as rest => (b - a) :: deltas rest
  | _ => []
  end.

(** 60 over the average interval in seconds, truncated, for intervals
    that add up to [total] samples over [n] intervals. *)
Definition bpm_of (total n : Z) : option Z :=
  Py.int_of_float
    (PrimFloat.div (Py.float_of_int 60)
       (PrimFloat.div (PrimFloat.div (Py.float_of_int total) (Py.float_of_int n))
                      (Py.float_of_int SAMPLE_RATE))).

Definition in_bounds (h : Z) : bool := (MIN_HEART_RATE <=? h) && (h <=? MAX_HEART_RATE).

(** Strictly ascending peak indices. *)
Fixpoint ascending (l : list Z) : Prop :=
  match l with
  | a :: (b :: _) as rest => a < b /\ ascending rest
  | _ => True
  end.

(** [f] holds on [z], [z+1], ... ([count] values). *)
Fixpoint forall_from (f : Z -> bool) (z : Z) (count : nat) : bool :=
  match count with
  | O => true
  | S c => f z && forall_from f (z + 1) c
  end.

(** The binary64 estimate against the exact quotient 60*250*n/total:
    it is the quotient or one less, and they agree whenever either lies
    within the bounds. *)
Definition bpm_exact_check (n total : Z) : bool :=
  match bpm_of total n with
  | Some h =>
      (60 * SAMPLE_RATE * n / total - 1 <=? h) && (h <=? 60 * SAMPLE_RATE * n / total)
      && (if in_bounds h || in_bounds (60 * SAMPLE_RATE * n / total)
          then h =? 60 * SAMPLE_RATE * n / total else true)
  | None => false
  end.

(** The most intervals whose exact estimate can stay within the bounds
    inside one buffer: 21 intervals over at most 1499 samples are
    already more than 210 beats per minute. *)
Definition MAX_INTERVALS : Z := 20.

(** Every [n] intervals, up to [MAX_INTERVALS], spanning [total] samples
    inside one buffer. *)
Definition bpm_table : bool :=
  forall_from (fun n => forall_from (bpm_exact_check n) n (Z.to_nat (MAX_POINTS - n)))
              1 (Z.to_nat MAX_INTERVALS).

(** The binary64 mean of a history against the integer quotient. *)
Definition mean_check (k s : Z) : bool :=
  match Py.int_of_float (PrimFloat.div (Py.float_of_int s) (Py.float_of_int k)) with
  | Some q => q =? s / k
  | None => false
  end.

(** Every sum of [k] values within the bounds, for every [k] up to the
    capacity of the history. *)
Definition mean_table : bool :=
  forall_from
    (fun k => forall_from (mean_check k) (MIN_HEART_RATE * k)
                (Z.to_nat ((MAX_HEART_RATE - MIN_HEART_RATE) * k + 1)))
    1 (Z.to_nat HISTORY_LEN).

Definition bounded (v : Z) : Prop := MIN_HEART_RATE <= v <= MAX_HEART_RATE.

Definition history_ok (h : list Z) : Prop :=
  Forall bounded h /\ Z.of_nat (length h) <= HISTORY_LEN.

Definition label_ok (t : HrText) : Prop :=
  match t with
  | HrBpm v => bounded v
  | HrUnavailable => True
  end.

Definition app_ok (app : ECGApp) : Prop :=
  history_ok (heart_rate_history app) /\ label_ok (hr_label app).

(** The exact quotient 60 * SAMPLE_RATE / (total / n), truncated. *)
Definition exact_bpm (peaks : list Z) : Z :=
  60 * SAMPLE_RATE * Z.of_nat (length (deltas peaks)) / Py.sum (deltas peaks).


(** Peak lists whose estimates are 60, 62, 58, 64 and 66, and a sixth
    one for 75. *)
Definition five_beats : list (list Z) :=
  [[10; 260]; [10; 251]; [10; 268]; [10; 244]; [10; 237]].
Definition sixth_beat : list Z := [10; 210].

Definition app_after_five : ECGApp :=
  fold_left (fun app peaks => report_heart_rate peaks app) five_beats (init 0).

(** ** The parser as the specification words it *)

Inductive SampleEvent := Reading (amplitude : Z) | LeadOff.

(** One line of input: nothing for a line that is empty once trimmed or
    that is no integer, [LeadOff] for -1, a [Reading] otherwise. *)
Definition event_of_line (line : Py.str) : list SampleEvent :=
  match Py.int (Py.strip line) with
  | Some v => if v =? -1 then [LeadOff] else [Reading v]
  | None => []
  end.

(** The events of a chunk: its lines, split at the newlines, each on
    its own. *)
Definition parse_chunk (chunk : Py.str) : list SampleEvent :=
  flat_map event_of_line (Py.split Py.newline chunk).

(** What one event does to the buffer and to the lead-off flag. *)
Definition absorb (st : Ingest) (e : SampleEvent) : Ingest :=
  match e with
  | Reading v => mkIngest (Py.deque_append MAX_POINTS (buffer st) v)
                          (new_data_count st + 1) (lead_off_detected st)
  | LeadOff => mkIngest (buffer st) (new_data_count st) true
  end.

Definition is_reading (e : SampleEvent) : bool :=
  match e with Reading _ => true | LeadOff => false end.

Definition is_lead_off (e : SampleEvent) : bool :=
  match e with Reading _ => false | LeadOff => true end.

(** Lines joined by newlines, each line followed by one. *)
Definition unlines (ls : list string) : Py.str :=
  flat_map (fun l => Py.of_string l ++ [Py.newline]) ls.

(** The chunk "-1\n123\nabc\n\n45\n". *)
Definition chunk_example : Py.str := unlines ["-1"; "123"; "abc"; ""; "45"]%string.

(** A chunk with the lead-off sentinel alone, and one with one reading. *)
Definition chunk_lead_off : Py.str := unlines ["-1"]%string.
Definition chunk_100 : Py.str := unlines ["100"]%string.

(** A session: connect, one reading shown, disconnect, connect again. *)
Definition app_reconnected : ECGApp :=
  toggle_connection Opened 3
    (toggle_connection Opened 2
       (update_plot (Waiting chunk_100) 1
          (toggle_connection Opened 0 (init 0)))).

(** A chunk with the sentinel followed by a reading. *)
Definition chunk_lead_off_100 : Py.str := unlines ["-1"; "100"]%string.

(** A flat line of [n] samples at 0 with the given spikes (index, height). *)
Definition spikes (n : nat) (beats : list (nat * Z)) : list Z :=
  map (fun i => match find (fun b => Nat.eqb (fst b) i) beats with
                | Some b => snd b
                | None => 0
                end)
      (seq 0 n).

(** Two R waves 100 samples apart, one second long. *)
Definition data_two_beats : list Z := spikes 250 [(50%nat, 1000); (150%nat, 1000)].

(** A connected application with one second of signal in its buffer. *)
Definition app_one_second : ECGApp :=
  mkApp true true data_two_beats 0 0 [] HrUnavailable Green QualityGood
        data_two_beats [] 0.

(** The fields [update_heart_rate] never writes. *)
Definition same_display (a b : ECGApp) : Prop :=
  serial_open a = serial_open b /\ timer_active a = timer_active b
  /\ data_buffer a = data_buffer b /\ last_update_time a = last_update_time b
  /\ data_count a = data_count b
  /\ signal_quality_label a = signal_quality_label b
  /\ plot_curve a = plot_curve b.

(** The decimal text of the two sample values used in the examples. *)
Definition sample_text (z : Z) : string := if z =? 0 then "0" else "1000".

(** The second of signal above as it arrives on the wire. *)
Definition chunk_two_beats : Py.str := unlines (map sample_text data_two_beats).

(** Connect, then receive that second of signal two seconds later. *)
Definition app_beating : ECGApp :=
  update_plot (Waiting chunk_two_beats) 2 (toggle_connection Opened 0 (init 0)).

(** Three R waves 60 samples apart: 250 beats per minute. *)
Definition data_fast : list Z :=
  spikes 250 [(50%nat, 1000); (110%nat, 1000); (170%nat, 1000)].

(** The filtered window of [data], when the filter does not raise. *)
Definition filtered_of (data : list Z) : list Qc :=
  match baseline_filter data with
  | Some filtered_data => filtered_data
  | None => []
  end.

(** The application with one earlier estimate, 40, in its history. *)
Definition app_history_40 : ECGApp :=
  mkApp true true data_two_beats 0 0 [40] (HrBpm 40) Blue QualityGood
        data_two_beats [] 0.

(** A spike of 1000 at index 100 and a higher one, 2000, 15 samples later. *)
Definition data_crowded : list Z := spikes 250 [(100%nat, 1000); (115%nat, 2000)].

(** The estimate a run on [data] pushes into the history, if any. *)
Definition accepted_estimate (data : list Z) : option Z :=
  match baseline_filter data with
  | Some filtered_data =>
      let peaks := find_peaks filtered_data in
      if 2 <=? Z.of_nat (length peaks) then
        match heart_rate_of peaks with
        | Some heart_rate => if in_bounds heart_rate then Some heart_rate else None
        | None => None
        end
      else None
  | None => None
  end.

(** The integer mean of a history. *)
Definition mean_of (h : list Z) : Z := Py.sum h / Z.of_nat (length h).

(** ** Further notions used to state what the code keeps *)

(** The last [m] entries of [l]. *)
Definition keep_last (m : Z) (l : list Z) : list Z :=
  skipn (Z.to_nat (Z.of_nat (length l) - m)) l.

(** The amplitudes of the Readings among some events, in order. *)
Definition readings_of (es : list SampleEvent) : list Z :=
  flat_map (fun e => match e with Reading v => [v] | LeadOff => [] end) es.

(** Lines, each followed by the end-of-line sequence [eol]. *)
Definition join_lines (eol : Py.str) (lines : list Py.str) : Py.str :=
  flat_map (fun l => l ++ eol) lines.

Definition carriage_return : ascii := ascii_of_nat 13.

(** Whether a tick enters [update_heart_rate]: the conditions of
    [update_plot] on the way to the call, in the order of the code. *)
Definition heart_rate_due (input : SerialInput) (now : float) (app : ECGApp) : bool :=
  match input with
  | ReadFails => false
  | Waiting raw_data =>
      serial_open app
      && negb (Z.of_nat (length raw_data) <=? 0)
      && (0 <? new_data_count (ingest raw_data (data_buffer app)))
      && PrimFloat.leb 1 (PrimFloat.sub now (last_update_time app))
      && negb (lead_off_detected (ingest raw_data (data_buffer app)))
      && (SAMPLE_RATE <=? Z.of_nat (length (buffer (ingest raw_data (data_buffer app)))))
  end.

(** Two equal spikes 10 samples apart. *)
Definition data_twin_peaks : list Z := spikes 250 [(100%nat, 1000); (110%nat, 1000)].

(** Ten samples: too few for the filter. *)
Definition data_short : list Z := repeat 2000 10.

(** ** [find_pico_port] *)

(** What the function reads of an entry of [comports()]: its [device]
    and the text [str(port)]. *)
Record PortInfo := mkPort {
  device : Py.str;
  port_text : Py.str
}.

Fixpoint startswith (prefix s : Py.str) : bool :=
  match prefix, s with
  | [], _ => true
  | _ :: _, [] => false
  | c :: prefix', d :: s' => Ascii.eqb c d && startswith prefix' s'
  end.

(** [needle in hay] on strings. *)
Fixpoint str_contains (needle hay : Py.str) : bool :=
  startswith needle hay
  || match hay with
     | [] => false
     | _ :: hay' => str_contains needle hay'
     end.

Definition PICO_IDS : list Py.str :=
  map Py.of_string ["2E8A:000A"; "2E8A:0003"; "USB Serial Device"]%string.

(** [any(id in str(port) for id in [...])] *)
Definition is_pico (port : PortInfo) : bool :=
  existsb (fun id => str_contains id (port_text port)) PICO_IDS.

(** [find_pico_port] on the list [comports()] returns; [None] is Python's. *)
Definition find_pico_port (ports : list PortInfo) : option Py.str :=
  match find is_pico ports with
  | Some port => Some (device port)
  | None =>
      match ports with
      | port :: _ => Some (device port)
      | [] => None
      end
  end.

(** Two ports, the second one a Pico. *)
Definition ports_example : list PortInfo :=
  [mkPort (Py.of_string "COM1") (Py.of_string "COM1 - Communications Port");
   mkPort (Py.of_string "COM7")
          (Py.of_string "COM7 - USB VID:PID=2E8A:000A SER=E66038B713")]%string.

(** The colour of the heart-rate label is the one of the value it shows. *)
Definition style_matches (app : ECGApp) : Prop :=
  forall avg_hr, hr_label app = HrBpm avg_hr -> hr_style app = style_of avg_hr.

(** * Properties *)

Ltac conjs := repeat match goal with |- _ /\ _ => split end.
Ltac concrete := vm_compute; repeat (constructor || discriminate || reflexivity).

(** ** Strings *)

Lemma lstrip_snoc (x : Py.str) (c : ascii) :
  Py.lstrip (x ++ [c]) =
  match Py.lstrip x with
  | [] => if Py.isspace c then [] else [c]
  | y => y ++ [c]
  end.
Proof.
  induction x as [|d x IH]; simpl.
  - destruct (Py.isspace c); reflexivity.
  - destruct (Py.isspace d); [exact IH | reflexivity].
Qed.

Lemma rstrip_snoc (l : Py.str) (c : ascii) :
  Py.rstrip (l ++ [c]) = if Py.isspace c then Py.rstrip l else l ++ [c].
Proof.
  unfold Py.rstrip. rewrite rev_unit. simpl.
  destruct (Py.isspace c); [reflexivity|].
  simpl. now rewrite rev_involutive.
Qed.

Lemma rstrip_cons (c : ascii) (l : Py.str) :
  Py.rstrip (c :: l) =
  match Py.rstrip l with
  | [] => if Py.isspace c then [] else [c]
  | r => c :: r
  end.
Proof.
  unfold Py.rstrip. change (rev (c :: l)) with (rev l ++ [c]). rewrite lstrip_snoc.
  destruct (Py.lstrip (rev l)) as [|d y] eqn:E.
  - destruct (Py.isspace c); reflexivity.
  - rewrite rev_unit.
    destruct (rev (d :: y)) as [|e r] eqn:R; [|reflexivity].
    apply (f_equal (@length ascii)) in R. rewrite length_rev in R. discriminate.
Qed.

Lemma strip_cons_space (c : ascii) (l : Py.str) :
  Py.isspace c = true -> Py.strip (c :: l) = Py.strip l.
Proof.
  intros Hc. unfold Py.strip. rewrite rstrip_cons.
  destruct (Py.rstrip l) as [|d r]; rewrite ?Hc; simpl; rewrite ?Hc; reflexivity.
Qed.

Lemma strip_snoc_space (l : Py.str) (c : ascii) :
  Py.isspace c = true -> Py.strip (l ++ [c]) = Py.strip l.
Proof.
  intros Hc. unfold Py.strip. now rewrite rstrip_snoc, Hc.
Qed.

Lemma split_not_nil (sep : ascii) (s : Py.str) : Py.split sep s <> [].
Proof.
  destruct s as [|c s]; simpl; [discriminate|].
  destruct (Ascii.eqb c sep); [discriminate|].
  destruct (Py.split sep s); discriminate.
Qed.

Lemma split_app_sep (sep : ascii) (a b : Py.str) :
  Py.split sep (a ++ sep :: b) = Py.split sep a ++ Py.split sep b.
Proof.
  induction a as [|c a IH]; simpl.
  - now rewrite Ascii.eqb_refl.
  - rewrite IH. destruct (Ascii.eqb c sep); [reflexivity|].
    destruct (Py.split sep a) as [|h t] eqn:E; [now apply split_not_nil in E|].
    reflexivity.
Qed.

Lemma split_snoc (sep : ascii) (s : Py.str) (c : ascii) :
  Py.split sep (s ++ [c]) =
  if Ascii.eqb c sep then Py.split sep s ++ [[]]
  else removelast (Py.split sep s) ++ [last (Py.split sep s) [] ++ [c]].
Proof.
  induction s as [|d s IH].
  - simpl. destruct (Ascii.eqb c sep); reflexivity.
  - change ((d :: s) ++ [c]) with (d :: (s ++ [c])).
    cbn [Py.split]. rewrite IH. clear IH.
    pose proof (split_not_nil sep s) as Hne.
    destruct (Py.split sep s) as [|h t]; [congruence|]. clear Hne.
    destruct (Ascii.eqb c sep), (Ascii.eqb d sep); try reflexivity.
    destruct t as [|h' t']; reflexivity.
Qed.

(** ** The parser *)

Lemma event_of_line_cons_space (c : ascii) (l : Py.str) :
  Py.isspace c = true -> event_of_line (c :: l) = event_of_line l.
Proof. intros H. unfold event_of_line. now rewrite strip_cons_space. Qed.

Lemma event_of_line_snoc_space (l : Py.str) (c : ascii) :
  Py.isspace c = true -> event_of_line (l ++ [c]) = event_of_line l.
Proof. intros H. unfold event_of_line. now rewrite strip_snoc_space. Qed.

Lemma event_of_line_nil : event_of_line [] = [].
Proof. reflexivity. Qed.

(** Stripping the chunk on the left before splitting it changes no event. *)
Lemma events_lstrip (s : Py.str) :
  flat_map event_of_line (Py.split Py.newline (Py.lstrip s)) =
  flat_map event_of_line (Py.split Py.newline s).
Proof.
  induction s as [|c s IH]; [reflexivity|].
  cbn [Py.lstrip]. destruct (Py.isspace c) eqn:Hc; [|reflexivity].
  rewrite IH. cbn [Py.split].
  destruct (Ascii.eqb c Py.newline); [reflexivity|].
  pose proof (split_not_nil Py.newline s) as Hne.
  destruct (Py.split Py.newline s) as [|h t]; [congruence|].
  cbn [flat_map]. now rewrite event_of_line_cons_space.
Qed.

(** Nor does stripping it on the right. *)
Lemma events_rstrip (s : Py.str) :
  flat_map event_of_line (Py.split Py.newline (Py.rstrip s)) =
  flat_map event_of_line (Py.split Py.newline s).
Proof.
  induction s as [|c s IH] using rev_ind; [reflexivity|].
  rewrite rstrip_snoc. destruct (Py.isspace c) eqn:Hc; [|reflexivity].
  rewrite IH, split_snoc.
  destruct (Ascii.eqb c Py.newline).
  - rewrite flat_map_app. cbn [flat_map]. rewrite event_of_line_nil.
    now rewrite !app_nil_r.
  - pose proof (app_removelast_last [] (split_not_nil Py.newline s)) as E.
    rewrite E at 1. rewrite !flat_map_app. cbn [flat_map].
    now rewrite event_of_line_snoc_space by exact Hc.
Qed.

Lemma events_strip (s : Py.str) :
  flat_map event_of_line (Py.split Py.newline (Py.strip s)) = parse_chunk s.
Proof. unfold Py.strip, parse_chunk. now rewrite events_lstrip, events_rstrip. Qed.

Lemma ingest_line_absorb (st : Ingest) (line : Py.str) :
  ingest_line st line = fold_left absorb (event_of_line line) st.
Proof.
  unfold ingest_line, event_of_line.
  destruct (Py.strip line) as [|c l] eqn:E; [reflexivity|].
  destruct (Py.int (c :: l)) as [v|]; [|reflexivity].
  destruct (v =? -1); reflexivity.
Qed.

Lemma ingest_lines_absorb (lines : list Py.str) (st : Ingest) :
  fold_left ingest_line lines st =
  fold_left absorb (flat_map event_of_line lines) st.
Proof.
  revert st. induction lines as [|l ls IH]; intros st; [reflexivity|].
  cbn [fold_left flat_map]. now rewrite fold_left_app, IH, ingest_line_absorb.
Qed.

(** The loop of [update_plot] does to the buffer and the flag what the
    events of the chunk say, one after the other. *)
Lemma ingest_parse_chunk (raw_data : Py.str) (buf : list Z) :
  ingest raw_data buf = fold_left absorb (parse_chunk raw_data) (mkIngest buf 0 false).
Proof. unfold ingest. now rewrite ingest_lines_absorb, events_strip. Qed.

Lemma absorb_lead_off (es : list SampleEvent) (st : Ingest) :
  lead_off_detected (fold_left absorb es st) =
  lead_off_detected st || existsb is_lead_off es.
Proof.
  revert st. induction es as [|e es IH]; intros st; cbn [fold_left existsb].
  - now rewrite orb_false_r.
  - rewrite IH. destruct e; cbn; [reflexivity|].
    now rewrite orb_true_r.
Qed.

Lemma absorb_count (es : list SampleEvent) (st : Ingest) :
  new_data_count (fold_left absorb es st) =
  new_data_count st + Z.of_nat (length (filter is_reading es)).
Proof.
  revert st. induction es as [|e es IH]; intros st; cbn [fold_left filter].
  - cbn. lia.
  - rewrite IH. destruct e; cbn [absorb new_data_count is_reading length]; lia.
Qed.

Lemma absorb_no_reading (es : list SampleEvent) (st : Ingest) :
  filter is_reading es = [] -> buffer (fold_left absorb es st) = buffer st.
Proof.
  revert st. induction es as [|e es IH]; intros st H; [reflexivity|].
  destruct e; cbn in H; [discriminate|].
  cbn [fold_left]. now rewrite IH.
Qed.

(** C9. The chunk "-1\n123\nabc\n\n45\n" parses to LeadOff, Reading 123,
    Reading 45 in this order, and the loop of [update_plot] leaves the
    matching buffer, count and flag.  For every chunk: the loop does
    exactly what the events of the chunk's lines say; a line is -1 and
    gives LeadOff, or another integer and gives a Reading, or is dropped;
    and the events of two chunks joined by a newline are the events of
    the first followed by the events of the second, so no line changes
    what a neighbour yields. *)
Theorem parser_events :
  parse_chunk chunk_example = [LeadOff; Reading 123; Reading 45]
  /\ ingest chunk_example [] = mkIngest [123; 45] 2 true
  /\ (forall raw_data buf,
        ingest raw_data buf =
        fold_left absorb (parse_chunk raw_data) (mkIngest buf 0 false))
  /\ (forall line,
        event_of_line line =
        match Py.strip line with
        | [] => []
        | trimmed =>
            match Py.int trimmed with
            | Some v => if v =? -1 then [LeadOff] else [Reading v]
            | None => []
            end
        end)
  /\ (forall a b,
        parse_chunk (a ++ Py.newline :: b) = parse_chunk a ++ parse_chunk b).
Proof.
  split; [vm_compute; reflexivity|].
  split; [vm_compute; reflexivity|].
  split; [exact ingest_parse_chunk|].
  split.
  - intros line. unfold event_of_line. now destruct (Py.strip line).
  - intros a b. unfold parse_chunk. now rewrite split_app_sep, flat_map_app.
Qed.

(** ** What [update_heart_rate] leaves alone *)

Lemma report_heart_rate_frame (peaks : list Z) (app : ECGApp) :
  same_display (report_heart_rate peaks app) app.
Proof.
  unfold report_heart_rate, same_display.
  destruct (2 <=? Z.of_nat (length peaks)); [|cbn; tauto].
  destruct (heart_rate_of peaks) as [h|]; [|cbn; tauto].
  destruct ((MIN_HEART_RATE <=? h) && (h <=? MAX_HEART_RATE)); [|cbn; tauto].
  cbn [heart_rate_history set_history].
  destruct (int_mean _); cbn; tauto.
Qed.

Lemma update_heart_rate_frame (data : list Z) (app : ECGApp) :
  same_display (update_heart_rate data app) app.
Proof.
  unfold update_heart_rate.
  destruct (baseline_filter data) as [f|].
  - pose proof (report_heart_rate_frame (find_peaks f) (enter_heart_rate app)) as H.
    unfold same_display in *. cbn in H. exact H.
  - unfold same_display. cbn. tauto.
Qed.

(** ** The tick *)

Lemma parse_chunk_nil : parse_chunk [] = [].
Proof. reflexivity. Qed.

Lemma lead_off_in_events (es : list SampleEvent) :
  In LeadOff es -> existsb is_lead_off es = true.
Proof. intros H. apply existsb_exists. exists LeadOff. now split. Qed.

(** C5. A tick whose batch holds a lead-off sentinel never enters
    [update_heart_rate]: the history, the heart-rate label and the count
    of runs are what they were, whatever the buffer holds and however
    much time has passed; on an open port the quality label reads
    "Lead Off". *)
Theorem lead_off_skips_heart_rate (raw_data : Py.str) (now : float) (app : ECGApp) :
  In LeadOff (parse_chunk raw_data) ->
  heart_rate_runs (update_plot (Waiting raw_data) now app) = heart_rate_runs app
  /\ heart_rate_history (update_plot (Waiting raw_data) now app) = heart_rate_history app
  /\ hr_label (update_plot (Waiting raw_data) now app) = hr_label app
  /\ (serial_open app = true ->
      signal_quality_label (update_plot (Waiting raw_data) now app) = QualityLeadOff).
Proof.
  intros Hin. unfold update_plot.
  destruct (serial_open app) eqn:Hopen; cbn [negb]; [|conjs; first [reflexivity | discriminate]].
  destruct (Z.of_nat (length raw_data) <=? 0) eqn:Hlen.
  - destruct raw_data; [now rewrite parse_chunk_nil in Hin | cbn in Hlen; lia].
  - assert (Hlead : lead_off_detected (ingest raw_data (data_buffer app)) = true).
    { rewrite ingest_parse_chunk, absorb_lead_off. cbn [lead_off_detected].
      now apply lead_off_in_events. }
    rewrite Hlead. cbn [negb andb].
    destruct (0 <? new_data_count (ingest raw_data (data_buffer app)));
      [|cbn; tauto].
    destruct (PrimFloat.leb 1 _); cbn; tauto.
Qed.

Lemma lead_off_skips_heart_rate_witness :
  In LeadOff (parse_chunk chunk_lead_off_100)
  /\ heart_rate_runs (update_plot (Waiting chunk_lead_off_100) 5 app_one_second) = 0%nat
  /\ SAMPLE_RATE <= Z.of_nat (length (data_buffer app_one_second)).
Proof.
  split; [vm_compute; auto|].
  split; [|vm_compute; discriminate].
  apply (lead_off_skips_heart_rate chunk_lead_off_100 5 app_one_second).
  vm_compute; auto.
Defined.

Lemma new_data_count_readings (raw_data : Py.str) (buf : list Z) :
  new_data_count (ingest raw_data buf) =
  Z.of_nat (length (filter is_reading (parse_chunk raw_data))).
Proof. now rewrite ingest_parse_chunk, absorb_count. Qed.

(** C4, as the code has it.  On an open port, a tick whose batch holds
    at least one Reading hands the buffer, as it is after ingestion, to
    the plot; a tick whose batch holds no Reading touches neither the
    plot nor the buffer. *)
Theorem plot_refreshed_on_readings (raw_data : Py.str) (now : float) (app : ECGApp) :
  serial_open app = true ->
  (filter is_reading (parse_chunk raw_data) <> [] ->
   plot_curve (update_plot (Waiting raw_data) now app)
   = data_buffer (update_plot (Waiting raw_data) now app)
   /\ data_buffer (update_plot (Waiting raw_data) now app)
      = buffer (fold_left absorb (parse_chunk raw_data) (mkIngest (data_buffer app) 0 false)))
  /\ (filter is_reading (parse_chunk raw_data) = [] ->
      plot_curve (update_plot (Waiting raw_data) now app) = plot_curve app
      /\ data_buffer (update_plot (Waiting raw_data) now app) = data_buffer app).
Proof.
  intros Hopen. unfold update_plot. rewrite Hopen. cbn [negb].
  destruct (Z.of_nat (length raw_data) <=? 0) eqn:Hlen.
  { destruct raw_data; [|cbn in Hlen; lia].
    rewrite parse_chunk_nil. cbn. split; [congruence | tauto]. }
  rewrite new_data_count_readings.
  destruct (filter is_reading (parse_chunk raw_data)) as [|e es] eqn:Hr.
  - cbn [length Z.of_nat Z.ltb Z.compare].
    split; [congruence|]. intros _. cbn.
    rewrite ingest_parse_chunk. split; [reflexivity|].
    now apply absorb_no_reading.
  - split; [|discriminate]. intros _.
    replace (0 <? Z.of_nat (length (e :: es))) with true
      by (symmetry; apply Z.ltb_lt; cbn [length]; lia).
    cbn [data_buffer set_ingested data_count last_update_time set_plot].
    set (r := ingest raw_data (data_buffer app)).
    assert (Hb : buffer r = buffer (fold_left absorb (parse_chunk raw_data)
                                      (mkIngest (data_buffer app) 0 false)))
      by (unfold r; now rewrite ingest_parse_chunk).
    destruct (PrimFloat.leb 1 _); [|cbn; now split].
    destruct (negb (lead_off_detected r) && _).
    + match goal with |- context [update_heart_rate ?d ?a] =>
        pose proof (update_heart_rate_frame d a) as F end.
      unfold same_display in F. cbn in F |- *.
      destruct F as (_ & _ & Fb & _ & _ & _ & Fp).
      rewrite Fb, Fp. now split.
    + cbn. now split.
Qed.

Lemma plot_refreshed_on_readings_witness :
  serial_open app_reconnected = true
  /\ filter is_reading (parse_chunk chunk_lead_off_100) <> []
  /\ plot_curve (update_plot (Waiting chunk_lead_off_100) 4 app_reconnected)
     = data_buffer (update_plot (Waiting chunk_lead_off_100) 4 app_reconnected).
Proof.
  split; [reflexivity|].
  split; [vm_compute; discriminate|].
  refine (proj1 (proj1 (plot_refreshed_on_readings chunk_lead_off_100 4 app_reconnected _) _)).
  - reflexivity.
  - vm_compute; discriminate.
Defined.

Lemma app_reconnected_reachable : reachable app_reconnected.
Proof.
  unfold app_reconnected.
  apply reach_toggle, reach_toggle, reach_tick; [|reflexivity].
  apply reach_toggle, reach_init.
Qed.

(** C4 as stated fails: after a reconnect the buffer is empty while the
    plot still shows the last session; a tick with the sentinel alone
    ingests its bytes and leaves the stale plot in place. *)
Lemma stale_plot_after_lead_off_tick :
  reachable app_reconnected
  /\ serial_open app_reconnected = true
  /\ timer_active app_reconnected = true
  /\ parse_chunk chunk_lead_off = [LeadOff]
  /\ signal_quality_label (update_plot (Waiting chunk_lead_off) 4 app_reconnected)
     = QualityLeadOff
  /\ data_buffer (update_plot (Waiting chunk_lead_off) 4 app_reconnected) = []
  /\ plot_curve (update_plot (Waiting chunk_lead_off) 4 app_reconnected) = [100]
  /\ plot_curve (update_plot (Waiting chunk_lead_off) 4 app_reconnected)
     <> data_buffer (update_plot (Waiting chunk_lead_off) 4 app_reconnected).
Proof.
  split; [exact app_reconnected_reachable|].
  conjs; try (vm_compute; reflexivity).
  vm_compute. discriminate.
Qed.

(** ** The estimator *)

Lemma forall_from_spec (f : Z -> bool) (count : nat) :
  forall z, forall_from f z count = true ->
  forall x, z <= x < z + Z.of_nat count -> f x = true.
Proof.
  induction count as [|c IH]; intros z H x Hx; [lia|].
  cbn [forall_from] in H. apply andb_prop in H as [H0 H1].
  destruct (Z.eq_dec x z) as [->|Hne]; [exact H0|].
  apply (IH (z + 1) H1). lia.
Qed.

Lemma bpm_table_true :
  forall_from (fun n => forall_from (bpm_exact_check n) n (Z.to_nat (MAX_POINTS - n)))
              1 (Z.to_nat MAX_INTERVALS) = true.
Proof. vm_cast_no_check (eq_refl true). Qed.

Lemma mean_table_true :
  forall_from
    (fun k => forall_from (mean_check k) (MIN_HEART_RATE * k)
                (Z.to_nat ((MAX_HEART_RATE - MIN_HEART_RATE) * k + 1)))
    1 (Z.to_nat HISTORY_LEN) = true.
Proof. vm_cast_no_check (eq_refl true). Qed.

Lemma max_points_value : MAX_POINTS = 1500.
Proof. reflexivity. Qed.

Lemma bpm_exact (n total : Z) :
  1 <= n <= MAX_INTERVALS -> n <= total < MAX_POINTS -> bpm_exact_check n total = true.
Proof.
  intros Hn Ht.
  pose proof (forall_from_spec _ _ _ bpm_table_true n) as Row. cbv beta in Row.
  rewrite max_points_value in *. change MAX_INTERVALS with 20 in *.
  apply (forall_from_spec _ _ _ (Row ltac:(lia))). lia.
Qed.

Lemma mean_exact (k s : Z) :
  1 <= k <= HISTORY_LEN -> MIN_HEART_RATE * k <= s <= MAX_HEART_RATE * k ->
  mean_check k s = true.
Proof.
  intros Hk Hs.
  pose proof (forall_from_spec _ _ _ mean_table_true k) as Row. cbv beta in Row.
  change HISTORY_LEN with 5 in *. change MIN_HEART_RATE with 40 in *.
  change MAX_HEART_RATE with 200 in *.
  apply (forall_from_spec _ _ _ (Row ltac:(lia))). lia.
Qed.

Lemma sum_from (l : list Z) (a : Z) : fold_left Z.add l a = a + Py.sum l.
Proof.
  unfold Py.sum. revert a. induction l as [|x l IH]; intros a; cbn [fold_left]; [lia|].
  rewrite (IH (a + x)), (IH (0 + x)). lia.
Qed.

Lemma sum_cons (x : Z) (l : list Z) : Py.sum (x :: l) = x + Py.sum l.
Proof. unfold Py.sum at 1. cbn [fold_left]. rewrite sum_from. lia. Qed.

Lemma nat_intervals (peaks : list Z) :
  map (fun k => nth (S k) peaks 0 - nth k peaks 0) (seq 0 (length peaks - 1)) =
  deltas peaks.
Proof.
  induction peaks as [|a t IH]; [reflexivity|].
  destruct t as [|b t']; [reflexivity|].
  cbn [length Nat.sub] in IH |- *. rewrite Nat.sub_0_r in IH.
  cbn [seq map nth deltas]. f_equal.
  rewrite <- seq_shift, map_map. exact IH.
Qed.

(** The list comprehension of the code builds the consecutive deltas. *)
Lemma intervals_of_deltas (peaks : list Z) : intervals_of peaks = deltas peaks.
Proof.
  rewrite <- nat_intervals. unfold intervals_of, Py.range, Py.getitem.
  rewrite map_map.
  replace (Z.to_nat (Z.of_nat (length peaks) - 1 - 0)) with (length peaks - 1)%nat by lia.
  apply map_ext. intros k.
  replace (Z.to_nat (0 + Z.of_nat k + 1)) with (S k) by lia.
  replace (Z.to_nat (0 + Z.of_nat k)) with k by lia.
  reflexivity.
Qed.

Lemma heart_rate_of_bpm (peaks : list Z) :
  heart_rate_of peaks =
  bpm_of (Py.sum (deltas peaks)) (Z.of_nat (length (deltas peaks))).
Proof. unfold heart_rate_of, mean_of_ints, bpm_of. now rewrite intervals_of_deltas. Qed.

Lemma deltas_length (peaks : list Z) : length (deltas peaks) = (length peaks - 1)%nat.
Proof.
  induction peaks as [|a t IH]; [reflexivity|].
  destruct t as [|b t']; [reflexivity|].
  cbn [deltas length] in *. lia.
Qed.

Lemma last_cons_default (b : Z) (t : list Z) (a : Z) : last (b :: t) a = last t b.
Proof.
  revert b a. induction t as [|c t IH]; intros b a; [reflexivity|].
  change (last (b :: c :: t) a) with (last (c :: t) a).
  now rewrite (IH c a), (IH c b).
Qed.

(** The deltas telescope: they add up to last minus first. *)
Lemma deltas_sum (a : Z) (t : list Z) : Py.sum (deltas (a :: t)) = last t a - a.
Proof.
  revert a. induction t as [|b t' IH]; intros a; [cbn; lia|].
  change (deltas (a :: b :: t')) with ((b - a) :: deltas (b :: t')).
  rewrite sum_cons, IH, last_cons_default. lia.
Qed.

Lemma ascending_deltas (peaks : list Z) :
  ascending peaks -> Z.of_nat (length (deltas peaks)) <= Py.sum (deltas peaks).
Proof.
  induction peaks as [|a t IH]; [cbn; lia|].
  destruct t as [|b t']; [cbn; lia|].
  intros [Hab Hrest].
  change (deltas (a :: b :: t')) with ((b - a) :: deltas (b :: t')).
  rewrite sum_cons. specialize (IH Hrest). cbn [length]. lia.
Qed.

(** ** The history *)

Lemma deque_append_fifo (h : list Z) (x : Z) :
  Z.of_nat (length h) <= HISTORY_LEN ->
  Py.deque_append HISTORY_LEN h x =
  if Z.of_nat (length h) <? HISTORY_LEN then h ++ [x] else tl h ++ [x].
Proof.
  intros Hlen. unfold Py.deque_append. rewrite length_app. cbn [length].
  unfold HISTORY_LEN in *.
  destruct (Z.of_nat (length h) <? 5) eqn:E.
  - apply Z.ltb_lt in E.
    assert (Z0 : Z.to_nat (Z.of_nat (length h + 1) - 5) = 0%nat) by lia.
    now rewrite Z0.
  - apply Z.ltb_ge in E.
    assert (Z1 : Z.to_nat (Z.of_nat (length h + 1) - 5) = 1%nat) by lia.
    rewrite Z1. destruct h as [|y h']; [cbn in E; lia | reflexivity].
Qed.

Lemma deque_append_ok (h : list Z) (x : Z) :
  history_ok h -> bounded x ->
  history_ok (Py.deque_append HISTORY_LEN h x) /\ Py.deque_append HISTORY_LEN h x <> [].
Proof.
  intros [Hall Hlen] Hx. rewrite deque_append_fifo by exact Hlen.
  destruct (Z.of_nat (length h) <? HISTORY_LEN) eqn:E.
  - apply Z.ltb_lt in E. split; [split|].
    + apply Forall_app. split; [exact Hall | now constructor].
    + rewrite length_app. cbn [length]. lia.
    + now destruct h.
  - split; [split|].
    + apply Forall_app. split; [|now constructor].
      destruct h; [constructor | now inversion Hall].
    + rewrite length_app. unfold HISTORY_LEN in *.
      destruct h; cbn [tl length] in *; lia.
    + now destruct (tl h).
Qed.

Lemma bounded_sum (h : list Z) :
  Forall bounded h ->
  MIN_HEART_RATE * Z.of_nat (length h) <= Py.sum h <= MAX_HEART_RATE * Z.of_nat (length h).
Proof.
  induction 1 as [|x l Hx _ IH]; [cbn; lia|].
  rewrite sum_cons. unfold bounded in Hx. cbn [length]. lia.
Qed.

(** On a history within the bounds the binary64 mean, truncated, is the
    integer quotient of the sum by the length, and lies within the bounds. *)
Lemma int_mean_ok (h : list Z) :
  history_ok h -> h <> [] ->
  int_mean h = Some (Py.sum h / Z.of_nat (length h))
  /\ bounded (Py.sum h / Z.of_nat (length h)).
Proof.
  intros [Hall Hlen] Hne.
  assert (Hk : 1 <= Z.of_nat (length h)) by (destruct h; [congruence | cbn [length]; lia]).
  pose proof (bounded_sum h Hall) as Hs.
  split.
  - unfold int_mean.
    replace (Z.of_nat (length h) =? 0) with false by (symmetry; apply Z.eqb_neq; lia).
    pose proof (mean_exact (Z.of_nat (length h)) (Py.sum h) (conj Hk Hlen) Hs) as M.
    unfold mean_check in M.
    destruct (Py.int_of_float _) as [q|]; [|discriminate].
    apply Z.eqb_eq in M. now subst.
  - unfold bounded.
    split.
    + apply Z.div_le_lower_bound; lia.
    + apply Z.div_le_upper_bound; lia.
Qed.

Lemma in_bounds_bounded (h : Z) : in_bounds h = true <-> bounded h.
Proof. unfold in_bounds, bounded. rewrite andb_true_iff, !Z.leb_le. tauto. Qed.

(** An accepted estimate: pushed, and the label shows the integer mean. *)
Lemma report_accepted (peaks : list Z) (h : Z) (app : ECGApp) :
  history_ok (heart_rate_history app) ->
  2 <= Z.of_nat (length peaks) -> heart_rate_of peaks = Some h -> bounded h ->
  let history := Py.deque_append HISTORY_LEN (heart_rate_history app) h in
  let avg_hr := Py.sum history / Z.of_nat (length history) in
  report_heart_rate peaks app =
  set_hr_label (HrBpm avg_hr) (style_of avg_hr) (set_history history app)
  /\ history_ok history /\ bounded avg_hr.
Proof.
  intros Hok Hlen Hh Hb history avg_hr.
  destruct (deque_append_ok _ h Hok Hb) as [Hok' Hne].
  destruct (int_mean_ok _ Hok' Hne) as [Hm Hbm].
  split; [|split; assumption].
  unfold report_heart_rate.
  replace (2 <=? Z.of_nat (length peaks)) with true by (symmetry; now apply Z.leb_le).
  rewrite Hh. change ((MIN_HEART_RATE <=? h) && (h <=? MAX_HEART_RATE)) with (in_bounds h).
  replace (in_bounds h) with true by (symmetry; now apply in_bounds_bounded).
  cbn [heart_rate_history set_history]. fold history. unfold history in Hm |- *.
  now rewrite Hm.
Qed.

(** A rejected estimate, or too few peaks: "--", and the history stays. *)
Lemma report_rejected (peaks : list Z) (app : ECGApp) :
  (Z.of_nat (length peaks) < 2
   \/ exists h, heart_rate_of peaks = Some h /\ (h < MIN_HEART_RATE \/ MAX_HEART_RATE < h)) ->
  report_heart_rate peaks app = set_hr_label HrUnavailable (hr_style app) app.
Proof.
  intros H. unfold report_heart_rate.
  destruct (2 <=? Z.of_nat (length peaks)) eqn:E; [|reflexivity].
  apply Z.leb_le in E. destruct H as [H|(h & Hh & Hout)]; [lia|].
  rewrite Hh.
  replace ((MIN_HEART_RATE <=? h) && (h <=? MAX_HEART_RATE)) with false; [reflexivity|].
  symmetry. apply andb_false_iff. rewrite !Z.leb_gt. tauto.
Qed.

Lemma report_heart_rate_ok (peaks : list Z) (app : ECGApp) :
  app_ok app -> app_ok (report_heart_rate peaks app).
Proof.
  intros [Hh Hl]. unfold report_heart_rate.
  destruct (2 <=? Z.of_nat (length peaks)) eqn:E; [|now split].
  destruct (heart_rate_of peaks) as [h|] eqn:Hh'; [|now split].
  destruct ((MIN_HEART_RATE <=? h) && (h <=? MAX_HEART_RATE)) eqn:Hb; [|now split].
  apply Z.leb_le in E. apply in_bounds_bounded in Hb.
  destruct (report_accepted peaks h app Hh E Hh' Hb) as (_ & Hok & Hm).
  destruct (deque_append_ok _ h Hh Hb) as [_ Hne].
  destruct (int_mean_ok _ Hok Hne) as [Hm' _].
  cbn [heart_rate_history set_history]. rewrite Hm'. now split.
Qed.

Lemma update_heart_rate_ok (data : list Z) (app : ECGApp) :
  app_ok app -> app_ok (update_heart_rate data app).
Proof.
  intros H. unfold update_heart_rate.
  destruct (baseline_filter data); [|exact H].
  apply report_heart_rate_ok. exact H.
Qed.

Lemma update_plot_ok (input : SerialInput) (now : float) (app : ECGApp) :
  app_ok app -> app_ok (update_plot input now app).
Proof.
  intros H. unfold update_plot.
  destruct (negb (serial_open app)); [exact H|].
  destruct input as [raw_data|]; [|exact H].
  destruct (Z.of_nat (length raw_data) <=? 0); [exact H|].
  destruct (0 <? new_data_count _); [|exact H].
  destruct (PrimFloat.leb 1 _); [|exact H].
  destruct (negb _ && _); [|exact H].
  match goal with |- app_ok (set_second _ (update_heart_rate ?d ?a)) =>
    exact (update_heart_rate_ok d a H) end.
Qed.

Lemma toggle_connection_ok (outcome : OpenOutcome) (now : float) (app : ECGApp) :
  app_ok app -> app_ok (toggle_connection outcome now app).
Proof.
  intros [Hh Hl]. unfold toggle_connection.
  destruct (negb (serial_open app)); [|now split].
  destruct outcome; now split.
Qed.

Lemma reachable_ok (app : ECGApp) : reachable app -> app_ok app.
Proof.
  induction 1 as [t0|outcome now app _ IH|input now app _ IH _].
  - split; [split; [constructor | cbn; unfold HISTORY_LEN; lia] | exact I].
  - now apply toggle_connection_ok.
  - now apply update_plot_ok.
Qed.

Lemma app_after_five_ok : history_ok (heart_rate_history app_after_five).
Proof. split; [|concrete]. vm_compute. repeat constructor; discriminate. Qed.

(** C10. In every reachable state each value in the heart-rate history
    lies in [40, 200], the history holds at most 5 values, the BPM shown
    by the label lies in [40, 200], and so does the integer mean of a
    non-empty history; connecting empties the history. *)
Theorem history_within_bounds (app : ECGApp) :
  reachable app ->
  Forall (fun v => MIN_HEART_RATE <= v <= MAX_HEART_RATE) (heart_rate_history app)
  /\ Z.of_nat (length (heart_rate_history app)) <= HISTORY_LEN
  /\ (forall avg_hr, hr_label app = HrBpm avg_hr ->
        MIN_HEART_RATE <= avg_hr <= MAX_HEART_RATE)
  /\ (heart_rate_history app <> [] ->
      exists avg_hr, int_mean (heart_rate_history app) = Some avg_hr
                     /\ MIN_HEART_RATE <= avg_hr <= MAX_HEART_RATE)
  /\ (forall now, serial_open app = false ->
        heart_rate_history (toggle_connection Opened now app) = []).
Proof.
  intros R. destruct (reachable_ok app R) as [[Hall Hlen] Hl].
  split; [exact Hall|]. split; [exact Hlen|]. split; [|split].
  - intros v E. rewrite E in Hl. exact Hl.
  - intros Hne. destruct (int_mean_ok _ (conj Hall Hlen) Hne) as [Hm Hb].
    eexists. split; [exact Hm | exact Hb].
  - intros now Hclosed. unfold toggle_connection. now rewrite Hclosed.
Qed.

Lemma app_beating_reachable : reachable app_beating.
Proof.
  unfold app_beating. apply reach_tick; [|reflexivity].
  apply reach_toggle, reach_init.
Qed.

Lemma history_within_bounds_witness :
  reachable app_beating
  /\ heart_rate_history app_beating = [150]
  /\ hr_label app_beating = HrBpm 150
  /\ Forall (fun v => MIN_HEART_RATE <= v <= MAX_HEART_RATE) (heart_rate_history app_beating).
Proof.
  split; [exact app_beating_reachable|].
  split; [vm_compute; reflexivity|].
  split; [vm_compute; reflexivity|].
  apply (history_within_bounds app_beating). exact app_beating_reachable.
Defined.

(** C8. An accepted estimate enters the history at the right, the
    oldest value leaving at the left once 5 are held, and the label
    shows the integer mean of the history as it then is.  After the
    estimates 60, 62, 58, 64, 66 the label shows 62; a sixth estimate,
    75, evicts the 60. *)
Theorem history_fifo_and_mean :
  (forall peaks h app,
      history_ok (heart_rate_history app) ->
      2 <= Z.of_nat (length peaks) -> heart_rate_of peaks = Some h ->
      MIN_HEART_RATE <= h <= MAX_HEART_RATE ->
      heart_rate_history (report_heart_rate peaks app)
      = (if Z.of_nat (length (heart_rate_history app)) <? HISTORY_LEN
         then heart_rate_history app ++ [h]
         else tl (heart_rate_history app) ++ [h])
      /\ hr_label (report_heart_rate peaks app)
         = HrBpm (Py.sum (heart_rate_history (report_heart_rate peaks app))
                  / Z.of_nat (length (heart_rate_history (report_heart_rate peaks app))))
      /\ int_mean (heart_rate_history (report_heart_rate peaks app))
         = Some (Py.sum (heart_rate_history (report_heart_rate peaks app))
                 / Z.of_nat (length (heart_rate_history (report_heart_rate peaks app)))))
  /\ map heart_rate_of five_beats = [Some 60; Some 62; Some 58; Some 64; Some 66]
  /\ heart_rate_history app_after_five = [60; 62; 58; 64; 66]
  /\ hr_label app_after_five = HrBpm 62
  /\ heart_rate_of sixth_beat = Some 75
  /\ heart_rate_history (report_heart_rate sixth_beat app_after_five) = [62; 58; 64; 66; 75]
  /\ hr_label (report_heart_rate sixth_beat app_after_five) = HrBpm 65.
Proof.
  split; [|conjs; vm_compute; reflexivity].
  intros peaks h app Hok Hlen Hh Hb.
  destruct (report_accepted peaks h app Hok Hlen Hh Hb) as (E & Hok' & _).
  cbv zeta in E. rewrite E. cbn [heart_rate_history hr_label set_hr_label set_history].
  destruct (deque_append_ok _ h Hok Hb) as [_ Hne].
  split; [apply deque_append_fifo; apply Hok|].
  split; [reflexivity|].
  apply int_mean_ok; assumption.
Qed.

Lemma history_fifo_and_mean_witness :
  history_ok (heart_rate_history app_after_five)
  /\ heart_rate_history (report_heart_rate sixth_beat app_after_five)
     = tl (heart_rate_history app_after_five) ++ [75].
Proof.
  split; [exact app_after_five_ok|].
  refine (proj1 (proj1 history_fifo_and_mean sixth_beat 75 app_after_five
                   app_after_five_ok _ _ _)).
  - vm_compute; discriminate.
  - vm_compute; reflexivity.
  - split; vm_compute; discriminate.
Defined.

(** C7. With fewer than 2 peaks, or with an estimate outside [40, 200]
    (20 and 250 for instance), the label reads "--" and the history is
    exactly what it was, whatever it held. *)
Theorem rejected_leaves_history :
  (forall peaks app,
      (Z.of_nat (length peaks) < 2
       \/ exists h, heart_rate_of peaks = Some h
                    /\ (h < MIN_HEART_RATE \/ MAX_HEART_RATE < h)) ->
      hr_label (report_heart_rate peaks app) = HrUnavailable
      /\ heart_rate_history (report_heart_rate peaks app) = heart_rate_history app)
  /\ (forall data filtered_data app,
        baseline_filter data = Some filtered_data ->
        (Z.of_nat (length (find_peaks filtered_data)) < 2
         \/ exists h, heart_rate_of (find_peaks filtered_data) = Some h
                      /\ (h < MIN_HEART_RATE \/ MAX_HEART_RATE < h)) ->
        hr_label (update_heart_rate data app) = HrUnavailable
        /\ heart_rate_history (update_heart_rate data app) = heart_rate_history app)
  /\ heart_rate_of [100; 850] = Some 20
  /\ heart_rate_of [100; 160] = Some 250
  /\ hr_label (report_heart_rate [100; 850] app_after_five) = HrUnavailable
  /\ heart_rate_history (report_heart_rate [100; 850] app_after_five) = [60; 62; 58; 64; 66]
  /\ hr_label (report_heart_rate [100; 160] app_after_five) = HrUnavailable
  /\ heart_rate_history (report_heart_rate [100; 160] app_after_five) = [60; 62; 58; 64; 66].
Proof.
  split; [|split; [|conjs; vm_compute; reflexivity]].
  - intros peaks app H. now rewrite report_rejected.
  - intros data f app E H. unfold update_heart_rate. rewrite E.
    now rewrite report_rejected.
Qed.

Lemma rejected_leaves_history_witness :
  baseline_filter data_fast = Some (filtered_of data_fast)
  /\ find_peaks (filtered_of data_fast) = [50; 110; 170]
  /\ heart_rate_of [50; 110; 170] = Some 250
  /\ hr_label (update_heart_rate data_fast app_after_five) = HrUnavailable
  /\ heart_rate_history (update_heart_rate data_fast app_after_five) = [60; 62; 58; 64; 66].
Proof.
  assert (E : baseline_filter data_fast = Some (filtered_of data_fast))
    by (vm_compute; reflexivity).
  assert (P : find_peaks (filtered_of data_fast) = [50; 110; 170])
    by (vm_compute; reflexivity).
  assert (H : heart_rate_of [50; 110; 170] = Some 250) by (vm_compute; reflexivity).
  split; [exact E|]. split; [exact P|]. split; [exact H|].
  assert (R : hr_label (update_heart_rate data_fast app_after_five) = HrUnavailable
              /\ heart_rate_history (update_heart_rate data_fast app_after_five)
                 = heart_rate_history app_after_five).
  { refine (proj1 (proj2 rejected_leaves_history) data_fast (filtered_of data_fast)
              app_after_five E _).
    right. exists 250. rewrite P. split; [exact H|]. right. reflexivity. }
  destruct R as [R1 R2]. split; [exact R1|]. rewrite R2. vm_compute. reflexivity.
Defined.

Lemma last_in_window (P : Z -> Prop) (a : Z) (t : list Z) :
  Forall P (a :: t) -> P (last t a).
Proof.
  revert a. induction t as [|b t IH]; intros a H; [now inversion H|].
  rewrite last_cons_default. apply IH. now inversion H.
Qed.

Lemma deltas_in_window (peaks : list Z) :
  2 <= Z.of_nat (length peaks) -> ascending peaks ->
  Forall (fun p => 0 <= p < MAX_POINTS) peaks ->
  1 <= Z.of_nat (length (deltas peaks)) <= Py.sum (deltas peaks)
  /\ Py.sum (deltas peaks) < MAX_POINTS.
Proof.
  intros Hlen Hasc Hwin.
  pose proof (ascending_deltas peaks Hasc) as Hn.
  pose proof (deltas_length peaks) as Hl.
  split; [lia|].
  destruct peaks as [|a t]; [cbn in Hlen; lia|].
  rewrite deltas_sum.
  pose proof (last_in_window _ a t Hwin) as Hlast. cbv beta in Hlast.
  inversion Hwin as [|? ? Ha _]; subst. lia.
Qed.


(** Inside one buffer the binary64 estimate of up to 21 strictly
    ascending peaks never raises, and it is the exact truncated quotient
    whenever either of the two lies within the bounds. *)
Lemma heart_rate_in_window (peaks : list Z) :
  2 <= Z.of_nat (length peaks) <= MAX_INTERVALS + 1 -> ascending peaks ->
  Forall (fun p => 0 <= p < MAX_POINTS) peaks ->
  exists h, heart_rate_of peaks = Some h
            /\ (MIN_HEART_RATE <= h <= MAX_HEART_RATE
                \/ MIN_HEART_RATE <= exact_bpm peaks <= MAX_HEART_RATE ->
                h = exact_bpm peaks).
Proof.
  intros Hlen Hasc Hwin.
  destruct (deltas_in_window peaks ltac:(lia) Hasc Hwin) as [Hn Htot].
  pose proof (deltas_length peaks) as Hl.
  assert (Hn1 : 1 <= Z.of_nat (length (deltas peaks)) <= MAX_INTERVALS) by lia.
  pose proof (bpm_exact _ _ Hn1 (conj (proj2 Hn) Htot)) as C.
  rewrite heart_rate_of_bpm. unfold exact_bpm, bpm_exact_check in *.
  destruct (bpm_of _ _) as [h|]; [|discriminate].
  apply andb_prop in C as [_ C].
  exists h. split; [reflexivity|]. intros Hb.
  assert (B : in_bounds h
              || in_bounds (60 * SAMPLE_RATE * Z.of_nat (length (deltas peaks))
                            / Py.sum (deltas peaks)) = true).
  { apply orb_true_iff. destruct Hb as [Hb|Hb]; [left|right];
      now apply in_bounds_bounded. }
  rewrite B in C. now apply Z.eqb_eq.
Qed.





(** Outside one buffer the estimate inside the bounds can fall one
    below the exact quotient as well: 11 intervals over 1500 samples
    give 109, not 110. *)
Lemma heart_rate_rounding :
  bpm_of 1500 11 = Some 109 /\ 60 * SAMPLE_RATE * 11 / 1500 = 110.
Proof. split; vm_compute; reflexivity. Qed.

(** ** Running [update_heart_rate] again *)

Lemma update_heart_rate_accepted (data : list Z) (h : Z) (app : ECGApp) :
  accepted_estimate data = Some h -> history_ok (heart_rate_history app) ->
  let history := Py.deque_append HISTORY_LEN (heart_rate_history app) h in
  update_heart_rate data app =
  set_hr_label (HrBpm (mean_of history)) (style_of (mean_of history))
    (set_history history (enter_heart_rate app))
  /\ history_ok history /\ bounded h.
Proof.
  unfold accepted_estimate, update_heart_rate. intros A Hok.
  destruct (baseline_filter data) as [f|]; [|discriminate].
  cbv zeta in A.
  destruct (2 <=? Z.of_nat (length (find_peaks f))) eqn:L; [|discriminate].
  destruct (heart_rate_of (find_peaks f)) as [h'|] eqn:Hh; [|discriminate].
  destruct (in_bounds h') eqn:B; [|discriminate].
  injection A as ->. apply Z.leb_le in L. apply in_bounds_bounded in B.
  destruct (report_accepted (find_peaks f) h (enter_heart_rate app) Hok L Hh B)
    as (E & Hok' & _).
  cbv zeta in E |- *. split; [exact E|]. split; assumption.
Qed.

Lemma update_heart_rate_not_accepted (data : list Z) :
  accepted_estimate data = None ->
  (forall app, update_heart_rate data app
               = log_debug HeartRateError (enter_heart_rate app))
  \/ (forall app, update_heart_rate data app
                  = set_hr_label HrUnavailable (hr_style app) (enter_heart_rate app)).
Proof.
  unfold accepted_estimate, update_heart_rate, report_heart_rate. intros A.
  destruct (baseline_filter data) as [f|]; [|now left].
  cbv zeta in A.
  destruct (2 <=? Z.of_nat (length (find_peaks f))); [|now right].
  destruct (heart_rate_of (find_peaks f)) as [h|]; [|now left].
  change ((MIN_HEART_RATE <=? h) && (h <=? MAX_HEART_RATE)) with (in_bounds h).
  destruct (in_bounds h); [discriminate | now right].
Qed.

Lemma all_equal_sum (h : Z) (l : list Z) :
  Forall (eq h) l -> Py.sum l = h * Z.of_nat (length l).
Proof.
  induction 1 as [|x l Hx _ IH]; [cbn; lia|].
  subst. rewrite sum_cons, IH. cbn [length]. lia.
Qed.

Lemma all_equal_append (h : Z) (l : list Z) :
  history_ok l -> Forall (eq h) l ->
  Forall (eq h) (Py.deque_append HISTORY_LEN l h)
  /\ mean_of (Py.deque_append HISTORY_LEN l h) = h.
Proof.
  intros [Hall Hlen] Heq.
  assert (F : Forall (eq h) (Py.deque_append HISTORY_LEN l h)).
  { rewrite deque_append_fifo by exact Hlen.
    destruct (_ <? _); apply Forall_app; (split; [|now repeat constructor]).
    - exact Heq.
    - destruct l; [constructor | now inversion Heq]. }
  split; [exact F|].
  unfold mean_of. rewrite (all_equal_sum h _ F).
  apply Z.div_mul. unfold Py.deque_append.
  rewrite length_skipn, length_app. cbn [length]. unfold HISTORY_LEN in *. lia.
Qed.

(** C2, as the code has it.  Running [update_heart_rate] a second time
    on the same data leaves the waveform, the quality label and the
    buffer as the first run left them.  When the first run pushes no
    estimate, the second shows the same label and leaves the same
    history.  When the first run pushes the estimate [h], the second
    pushes [h] once more and shows the mean of the history it then
    finds; that is the same label when every value the history held
    before equals [h], an empty history included. *)
Theorem rerun_heart_rate (data : list Z) (app : ECGApp) :
  history_ok (heart_rate_history app) ->
  plot_curve (update_heart_rate data (update_heart_rate data app))
  = plot_curve (update_heart_rate data app)
  /\ signal_quality_label (update_heart_rate data (update_heart_rate data app))
     = signal_quality_label (update_heart_rate data app)
  /\ data_buffer (update_heart_rate data (update_heart_rate data app))
     = data_buffer (update_heart_rate data app)
  /\ match accepted_estimate data with
     | None =>
         heart_rate_history (update_heart_rate data app) = heart_rate_history app
         /\ heart_rate_history (update_heart_rate data (update_heart_rate data app))
            = heart_rate_history (update_heart_rate data app)
         /\ hr_label (update_heart_rate data (update_heart_rate data app))
            = hr_label (update_heart_rate data app)
     | Some h =>
         heart_rate_history (update_heart_rate data app)
         = Py.deque_append HISTORY_LEN (heart_rate_history app) h
         /\ heart_rate_history (update_heart_rate data (update_heart_rate data app))
            = Py.deque_append HISTORY_LEN
                (Py.deque_append HISTORY_LEN (heart_rate_history app) h) h
         /\ hr_label (update_heart_rate data app)
            = HrBpm (mean_of (heart_rate_history (update_heart_rate data app)))
         /\ hr_label (update_heart_rate data (update_heart_rate data app))
            = HrBpm (mean_of (heart_rate_history
                                (update_heart_rate data (update_heart_rate data app))))
         /\ (Forall (eq h) (heart_rate_history app) ->
             hr_label (update_heart_rate data app) = HrBpm h
             /\ hr_label (update_heart_rate data (update_heart_rate data app)) = HrBpm h)
     end.
Proof.
  intros Hok.
  pose proof (update_heart_rate_frame data (update_heart_rate data app)) as F.
  unfold same_display in F. destruct F as (_ & _ & Fb & _ & _ & Fq & Fp).
  split; [exact Fp|]. split; [exact Fq|]. split; [exact Fb|].
  destruct (accepted_estimate data) as [h|] eqn:A.
  - destruct (update_heart_rate_accepted data h app A Hok) as (E1 & Hok1 & Hb).
    cbv zeta in E1.
    assert (H1 : heart_rate_history (update_heart_rate data app)
                 = Py.deque_append HISTORY_LEN (heart_rate_history app) h)
      by (now rewrite E1).
    assert (Hok1' : history_ok (heart_rate_history (update_heart_rate data app)))
      by (now rewrite H1).
    destruct (update_heart_rate_accepted data h _ A Hok1') as (E2 & Hok2 & _).
    cbv zeta in E2.
    split; [exact H1|]. split; [now rewrite E2, H1|].
    split; [now rewrite E1|]. split; [now rewrite E2|].
    intros Heq.
    destruct (all_equal_append h _ Hok Heq) as [Heq1 M1].
    destruct (all_equal_append h _ Hok1 Heq1) as [_ M2].
    split.
    + rewrite E1. cbn [hr_label set_hr_label]. now rewrite M1.
    + rewrite E2. cbn [hr_label set_hr_label]. rewrite H1. now rewrite M2.
  - destruct (update_heart_rate_not_accepted data A) as [E|E]; rewrite !E; now cbn.
Qed.

Lemma rerun_heart_rate_witness :
  history_ok (heart_rate_history app_one_second)
  /\ accepted_estimate data_two_beats = Some 150
  /\ hr_label (update_heart_rate data_two_beats
                 (update_heart_rate data_two_beats app_one_second)) = HrBpm 150.
Proof.
  assert (Hok : history_ok (heart_rate_history app_one_second))
    by (split; [constructor | vm_compute; discriminate]).
  assert (A : accepted_estimate data_two_beats = Some 150) by (vm_compute; reflexivity).
  split; [exact Hok|]. split; [exact A|].
  pose proof (rerun_heart_rate data_two_beats app_one_second Hok) as (_ & _ & _ & M).
  rewrite A in M. destruct M as (_ & _ & _ & _ & M).
  exact (proj2 (M (Forall_nil _))).
Defined.

(** C2 as stated fails: with 40 in the history and two beats 100
    samples apart in the buffer (150 BPM), the first run shows 95 and the
    second run, on the same buffer, shows 113. *)
Lemma rerun_changes_bpm :
  accepted_estimate data_two_beats = Some 150
  /\ heart_rate_history app_history_40 = [40]
  /\ hr_label (update_heart_rate data_two_beats app_history_40) = HrBpm 95
  /\ heart_rate_history (update_heart_rate data_two_beats app_history_40) = [40; 150]
  /\ hr_label (update_heart_rate data_two_beats
                 (update_heart_rate data_two_beats app_history_40)) = HrBpm 113
  /\ heart_rate_history (update_heart_rate data_two_beats
                           (update_heart_rate data_two_beats app_history_40))
     = [40; 150; 150]
  /\ hr_label (update_heart_rate data_two_beats
                 (update_heart_rate data_two_beats app_history_40))
     <> hr_label (update_heart_rate data_two_beats app_history_40).
Proof.
  conjs; try (vm_compute; reflexivity).
  vm_compute. discriminate.
Qed.

(** ** The vicinity check of the peak detector *)

(** C3 fails on the code: the slice [window_start:window_end] stops at
    index i+14, so the sample at i+15 is never compared.  With spikes of
    1000 at index 100 and 2000 at index 115 the filtered values are 960
    and 1920, and index 100 is emitted all the same. *)
Theorem vicinity_misses_offset_15 :
  baseline_filter data_crowded = Some (filtered_of data_crowded)
  /\ find_peaks (filtered_of data_crowded) = [100; 115]
  /\ this (Py.getitem 0%Qc (filtered_of data_crowded) 100) = 960 # 1
  /\ this (Py.getitem 0%Qc (filtered_of data_crowded) (100 + 15)) = 1920 # 1
  /\ Np.ltb (Py.getitem 0%Qc (filtered_of data_crowded) 100)
            (Py.getitem 0%Qc (filtered_of data_crowded) (100 + 15)) = true
  /\ Py.slice (seq 0 250) (Z.max 0 (100 - 15)) (Z.min 250 (100 + 15))
     = seq 85 30
  /\ Np.eqb (Py.getitem 0%Qc (filtered_of data_crowded) 100)
            (Np.max (Py.slice (filtered_of data_crowded) (Z.max 0 (100 - 15))
                              (Z.min 250 (100 + 15)))) = true.
Proof. conjs; vm_compute; reflexivity. Qed.

(** ** The baseline filter *)

Section Rationals.

#[local] Open Scope Qc_scope.

Lemma of_int_add (a b : Z) : Np.of_int (a + b) = Np.of_int a + Np.of_int b.
Proof.
  unfold Np.of_int, Qcplus. apply Q2Qc_eq_iff. cbn [this Q2Qc].
  rewrite !Qred_correct. now rewrite inject_Z_plus.
Qed.

Lemma of_int_mul (a b : Z) : Np.of_int (a * b) = Np.of_int a * Np.of_int b.
Proof.
  unfold Np.of_int, Qcmult. apply Q2Qc_eq_iff. cbn [this Q2Qc].
  rewrite !Qred_correct. now rewrite inject_Z_mult.
Qed.

Lemma of_int_25_nonzero : Np.of_int 25 <> 0.
Proof. intros H. apply (f_equal this) in H. vm_compute in H. discriminate. Qed.

Lemma qsum_from (l : list Qc) (a : Qc) : fold_left Qcplus l a = a + Np.qsum l.
Proof.
  unfold Np.qsum. revert a. induction l as [|x l IH]; intros a; cbn [fold_left]; [ring|].
  rewrite (IH (a + x)), (IH (0 + x)). ring.
Qed.

Lemma qsum_cons (x : Qc) (l : list Qc) : Np.qsum (x :: l) = x + Np.qsum l.
Proof. unfold Np.qsum at 1. cbn [fold_left]. rewrite qsum_from. ring. Qed.

Lemma qsum_app (l1 l2 : list Qc) : Np.qsum (l1 ++ l2) = Np.qsum l1 + Np.qsum l2.
Proof.
  induction l1 as [|x l1 IH]; [cbn [app]; unfold Np.qsum at 2; cbn; ring|].
  cbn [app]. rewrite !qsum_cons, IH. ring.
Qed.

Lemma qsum_of_ints (l : list Z) : Np.qsum (Np.of_ints l) = Np.of_int (Py.sum l).
Proof.
  induction l as [|x l IH]; [reflexivity|].
  unfold Np.of_ints in *. cbn [map]. now rewrite qsum_cons, sum_cons, of_int_add, IH.
Qed.

Lemma qsum_zero {A} (f : A -> Qc) (l : list A) :
  (forall x, In x l -> f x = 0) -> Np.qsum (map f l) = 0.
Proof.
  induction l as [|x l IH]; intros H; [reflexivity|].
  cbn [map]. rewrite qsum_cons, (H x (or_introl eq_refl)), IH; [ring|].
  intros y Hy. apply H. now right.
Qed.

Lemma qsum_scaled {A} (f : A -> Qc) (c : Qc) (l : list A) :
  Np.qsum (map (fun x => f x * c) l) = c * Np.qsum (map f l).
Proof.
  induction l as [|x l IH]; [unfold Np.qsum; cbn; ring|].
  cbn [map]. rewrite !qsum_cons, IH. ring.
Qed.

End Rationals.

Section Filter.

#[local] Open Scope Qc_scope.

Lemma skipn_nth_cons {A} (d : A) (l : list A) (lo : nat) :
  (lo < length l)%nat -> skipn lo l = nth lo l d :: skipn (S lo) l.
Proof.
  revert lo. induction l as [|x l IH]; intros lo H; [cbn in H; lia|].
  destruct lo as [|lo]; [reflexivity|].
  cbn [skipn nth length] in *. apply IH. lia.
Qed.

(** Reading [m] entries from index [lo] on, zero past the end, adds up
    to the slice. *)
Lemma qsum_nth_seq (a : list Qc) (m lo : nat) :
  Np.qsum (map (fun j => nth j a 0) (seq lo m)) = Np.qsum (firstn m (skipn lo a)).
Proof.
  revert lo. induction m as [|m IH]; intros lo; [reflexivity|].
  cbn [seq map]. rewrite qsum_cons, IH.
  destruct (Nat.lt_ge_cases lo (length a)) as [Hlt|Hge].
  - rewrite (skipn_nth_cons 0 a lo Hlt). cbn [firstn]. now rewrite qsum_cons.
  - rewrite nth_overflow by exact Hge.
    rewrite !skipn_all2 by lia. rewrite !firstn_nil. unfold Np.qsum. cbn. ring.
Qed.

(** The convolution with 25 equal weights, at the centre [i]: the weight
    times the sum of the entries at distance at most 12. *)
Lemma convolve_window (a : list Qc) (c : Qc) (i : nat) :
  Np.convolve_at a (repeat c 25) (i + 12) =
  c * Np.qsum (firstn (i + 13 - (i - 12)) (skipn (i - 12) a)).
Proof.
  unfold Np.convolve_at.
  replace (S (i + 12)) with ((i - 12) + (i + 13 - (i - 12)))%nat by lia.
  rewrite seq_app, map_app, qsum_app. cbn [Nat.add].
  rewrite qsum_zero.
  - rewrite <- qsum_nth_seq, <- qsum_scaled.
    rewrite Qcplus_0_l. f_equal. apply map_ext_in. intros j Hj.
    apply in_seq in Hj. rewrite nth_repeat_lt by lia. reflexivity.
  - intros j Hj. apply in_seq in Hj.
    rewrite (nth_overflow (repeat c 25)) by (rewrite repeat_length; lia). ring.
Qed.

Lemma zip_sub_seq (a : list Qc) (g : nat -> Qc) (s : nat) :
  Np.zip_sub a (map g (seq s (length a))) =
  map (fun k => nth k a 0 - g (s + k)%nat) (seq 0 (length a)).
Proof.
  revert s. induction a as [|x a IH]; intros s; [reflexivity|].
  cbn [length seq map Np.zip_sub nth]. rewrite Nat.add_0_r. f_equal.
  rewrite IH, <- seq_shift, map_map. apply map_ext. intros k.
  now rewrite Nat.add_succ_r.
Qed.

(** The filter on a window of at least 25 samples, entry by entry. *)
Lemma baseline_filter_entries (data : list Z) :
  (25 <= length data)%nat ->
  baseline_filter data =
  Some (map (fun i => Np.of_int (nth i data 0%Z)
                      - Np.convolve_at (Np.of_ints data) (repeat (1 / Np.of_int 25) 25)
                                       (i + 12))
            (seq 0 (length data))).
Proof.
  intros Hlen. unfold baseline_filter, Np.convolve_same.
  change (Np.ones_div FILTER_SIZE FILTER_SIZE) with (repeat (1 / Np.of_int 25) 25).
  destruct (Np.of_ints data) as [|x a] eqn:Ea.
  { apply (f_equal (@length Qc)) in Ea. unfold Np.of_ints in Ea.
    rewrite length_map in Ea. cbn in Ea. lia. }
  assert (La : length (x :: a) = length data)
    by (rewrite <- Ea; apply length_map).
  change (repeat (1 / Np.of_int 25) 25)
    with ((1 / Np.of_int 25) :: repeat (1 / Np.of_int 25) 24) at 1.
  cbv iota.
  change ((1 / Np.of_int 25) :: repeat (1 / Np.of_int 25) 24)
    with (repeat (1 / Np.of_int 25) 25).
  rewrite repeat_length.
  replace (length (x :: a) <? 25)%nat with false
    by (symmetry; apply Nat.ltb_ge; lia).
  change ((25 - 1) / 2)%nat with 12%nat.
  unfold Np.subtract. rewrite length_map, length_seq, Nat.eqb_refl.
  rewrite zip_sub_seq. rewrite La. f_equal.
  apply map_ext. intros i. cbn [Nat.add]. f_equal.
  rewrite <- Ea. unfold Np.of_ints.
  change 0 with (Np.of_int 0%Z). apply map_nth.
Qed.

End Filter.

Section FilterWindow.

#[local] Open Scope Qc_scope.

Lemma slice_window (data : list Z) (i : nat) :
  (i < length data)%nat ->
  Py.slice data (Z.max 0 (Z.of_nat i - 12))
           (Z.min (Z.of_nat (length data)) (Z.of_nat i + 13))
  = firstn (i + 13 - (i - 12)) (skipn (i - 12) data).
Proof.
  intros Hi. unfold Py.slice.
  replace (Z.to_nat (Z.max 0 (Z.of_nat i - 12))) with (i - 12)%nat by lia.
  destruct (Nat.le_gt_cases (i + 13) (length data)) as [Hin|Hout].
  - f_equal. lia.
  - rewrite !firstn_all2; [reflexivity | rewrite length_skipn; lia..].
Qed.

Lemma filtered_entry (data : list Z) (i : nat) :
  (25 <= length data)%nat -> (i < length data)%nat ->
  nth i (filtered_of data) 0 =
  Np.of_int (nth i data 0%Z) - Np.of_int (window_sum data (Z.of_nat i)) / Np.of_int 25.
Proof.
  intros Hlen Hi. unfold filtered_of. rewrite (baseline_filter_entries data Hlen).
  set (F := fun i : nat => _).
  rewrite (nth_indep _ 0 (F 0%nat)) by (rewrite length_map, length_seq; exact Hi).
  rewrite map_nth, seq_nth by exact Hi. cbn [Nat.add]. unfold F.
  rewrite convolve_window. unfold Np.of_ints at 1.
  rewrite skipn_map, firstn_map. fold (Np.of_ints (firstn (i + 13 - (i - 12)) (skipn (i - 12) data))).
  rewrite qsum_of_ints. unfold window_sum. rewrite (slice_window data i Hi).
  unfold Qcdiv. ring.
Qed.

Lemma filtered_length (data : list Z) :
  (25 <= length data)%nat ->
  baseline_filter data = Some (filtered_of data)
  /\ length (filtered_of data) = length data.
Proof.
  intros Hlen. unfold filtered_of. rewrite (baseline_filter_entries data Hlen).
  split; [reflexivity|]. now rewrite length_map, length_seq.
Qed.

Lemma slice_all_equal (c : Z) (l : list Z) (a b : Z) :
  Forall (eq c) l -> Forall (eq c) (Py.slice l a b).
Proof.
  rewrite !Forall_forall. intros H x Hx. apply H. unfold Py.slice in Hx.
  rewrite <- (firstn_skipn (Z.to_nat a) l). apply in_or_app. right.
  rewrite <- (firstn_skipn (Z.to_nat (b - a)) (skipn (Z.to_nat a) l)).
  apply in_or_app. now left.
Qed.

Lemma window_sum_constant (c n i : Z) :
  (25 <= n)%Z -> (0 <= i < n)%Z ->
  window_sum (repeat c (Z.to_nat n)) i = (c * window_count n i)%Z.
Proof.
  intros Hn Hi. unfold window_sum, window_count.
  rewrite repeat_length, Z2Nat.id by lia.
  rewrite (all_equal_sum c).
  - f_equal. unfold Py.slice. rewrite length_firstn, length_skipn, repeat_length. lia.
  - apply slice_all_equal. apply Forall_forall. intros x Hx.
    symmetry. exact (repeat_spec _ _ _ Hx).
Qed.

End FilterWindow.

Section FilterClaims.

#[local] Open Scope Qc_scope.

(** The filter in exact arithmetic, which the detector is studied
    over.  On a window of at least 25 samples it returns as many values,
    and the value at index i is the raw sample minus one 25th of the sum
    of the samples at distance at most 12 that exist; on a constant
    input it is zero at the indices 12 .. n-13 and c*(12-i)/25 at the
    left edge i < 12. *)
Lemma exact_filter_window_mean :
  (forall data i,
      (25 <= Z.of_nat (length data))%Z -> (0 <= i < Z.of_nat (length data))%Z ->
      baseline_filter data = Some (filtered_of data)
      /\ length (filtered_of data) = length data
      /\ Py.getitem 0 (filtered_of data) i
         = Np.of_int (Py.getitem 0%Z data i) - Np.of_int (window_sum data i) / Np.of_int 25)
  /\ (forall c n i,
        (25 <= n)%Z -> (0 <= i < n)%Z ->
        window_sum (repeat c (Z.to_nat n)) i = (c * window_count n i)%Z
        /\ Py.getitem 0 (filtered_of (repeat c (Z.to_nat n))) i
           = Np.of_int c - Np.of_int (c * window_count n i) / Np.of_int 25)
  /\ (forall c n i,
        (25 <= n)%Z -> (12 <= i < n - 12)%Z ->
        window_count n i = 25%Z
        /\ Py.getitem 0 (filtered_of (repeat c (Z.to_nat n))) i = 0)
  /\ (forall c n i,
        (25 <= n)%Z -> (0 <= i < 12)%Z ->
        window_count n i = (i + 13)%Z
        /\ Py.getitem 0 (filtered_of (repeat c (Z.to_nat n))) i
           = Np.of_int (c * (12 - i)) / Np.of_int 25).
Proof.
  assert (G : forall data i,
      (25 <= Z.of_nat (length data))%Z -> (0 <= i < Z.of_nat (length data))%Z ->
      baseline_filter data = Some (filtered_of data)
      /\ length (filtered_of data) = length data
      /\ Py.getitem 0 (filtered_of data) i
         = Np.of_int (Py.getitem 0%Z data i) - Np.of_int (window_sum data i) / Np.of_int 25).
  { intros data i Hlen Hi.
    destruct (filtered_length data ltac:(lia)) as [E L].
    split; [exact E|]. split; [exact L|].
    unfold Py.getitem.
    rewrite (filtered_entry data (Z.to_nat i)) by lia.
    now rewrite Z2Nat.id by lia. }
  assert (C : forall c n i,
        (25 <= n)%Z -> (0 <= i < n)%Z ->
        window_sum (repeat c (Z.to_nat n)) i = (c * window_count n i)%Z
        /\ Py.getitem 0 (filtered_of (repeat c (Z.to_nat n))) i
           = Np.of_int c - Np.of_int (c * window_count n i) / Np.of_int 25).
  { intros c n i Hn Hi.
    pose proof (window_sum_constant c n i Hn Hi) as W.
    split; [exact W|].
    destruct (G (repeat c (Z.to_nat n)) i) as (_ & _ & E);
      [rewrite repeat_length; lia.. |].
    rewrite E, W. f_equal. unfold Py.getitem.
    now rewrite nth_repeat_lt by lia. }
  split; [exact G|]. split; [exact C|]. split.
  - intros c n i Hn Hi.
    assert (W : window_count n i = 25%Z) by (unfold window_count; lia).
    split; [exact W|].
    destruct (C c n i Hn ltac:(lia)) as [_ E]. rewrite E, W, of_int_mul.
    field. exact of_int_25_nonzero.
  - intros c n i Hn Hi.
    assert (W : window_count n i = (i + 13)%Z) by (unfold window_count; lia).
    split; [exact W|].
    destruct (C c n i Hn ltac:(lia)) as [_ E]. rewrite E, W.
    assert (S : Np.of_int (c * (12 - i)) + Np.of_int (c * (i + 13))
                = Np.of_int 25 * Np.of_int c).
    { rewrite <- of_int_add, <- of_int_mul. f_equal. lia. }
    assert (S' : Np.of_int (c * (12 - i))
                 = Np.of_int 25 * Np.of_int c - Np.of_int (c * (i + 13)))
      by (rewrite <- S; ring).
    rewrite S'. field. exact of_int_25_nonzero.
Qed.

End FilterClaims.

(** ** The baseline filter in binary64 *)

Lemma repeat_skipn {A} (x : A) (n k : nat) : skipn k (repeat x n) = repeat x (n - k).
Proof.
  revert k. induction n as [|n IH]; intros k; [now destruct k|].
  destruct k as [|k]; [reflexivity|]. cbn [repeat skipn Nat.sub]. apply IH.
Qed.

Lemma repeat_firstn {A} (x : A) (n m : nat) :
  (m <= n)%nat -> firstn m (repeat x n) = repeat x m.
Proof.
  revert m. induction n as [|n IH]; intros m H.
  - replace m with 0%nat by lia. reflexivity.
  - destruct m as [|m]; [reflexivity|]. cbn [repeat firstn]. f_equal. apply IH. lia.
Qed.

Lemma zip_sub64_seq (a : list float) (g : nat -> float) (s : nat) :
  F64.zip_sub a (map g (seq s (length a))) =
  map (fun k => PrimFloat.sub (nth k a 0%float) (g (s + k)%nat)) (seq 0 (length a)).
Proof.
  revert s. induction a as [|x a IH]; intros s; [reflexivity|].
  cbn [length seq map F64.zip_sub nth]. rewrite Nat.add_0_r. f_equal.
  rewrite IH, <- seq_shift, map_map. apply map_ext. intros k.
  now rewrite Nat.add_succ_r.
Qed.

(** Laid on index [i], 25 equal weights meet the samples at distance at
    most 12 that exist, and as many weights take part as samples. *)
Lemma correlate_window (dot : list float -> list float -> float)
      (a : list float) (c : float) (i : nat) :
  (i < length a)%nat ->
  F64.correlate_at dot a (repeat c 25) i
  = dot (Py.slice a (Z.max 0 (Z.of_nat i - 12))
                  (Z.min (Z.of_nat (length a)) (Z.of_nat i + 13)))
        (repeat c (Z.to_nat (window_count (Z.of_nat (length a)) (Z.of_nat i)))).
Proof.
  intros Hi. unfold F64.correlate_at, Py.slice, window_count.
  rewrite repeat_length. change (25 / 2)%nat with 12%nat.
  replace (Z.to_nat (Z.max 0 (Z.of_nat i - 12))) with (i - 12)%nat by lia.
  replace (Z.to_nat (Z.min (Z.of_nat (length a)) (Z.of_nat i + 13)
                     - Z.max 0 (Z.of_nat i - 12)))
    with (Nat.min (length a) (i + 25 - 12) - (i - 12))%nat by lia.
  f_equal. rewrite repeat_skipn. apply repeat_firstn. lia.
Qed.

(** The filter on a window of at least 25 samples, entry by entry. *)
Lemma baseline_filter64_entries (dot : list float -> list float -> float)
      (data : list Z) :
  (25 <= length data)%nat ->
  baseline_filter64 dot data =
  Some (map (fun i => PrimFloat.sub
                        (F64.of_int (nth i data 0))
                        (F64.correlate_at dot (F64.of_ints data)
                           (repeat (PrimFloat.div 1 (F64.of_int 25)) 25) i))
            (seq 0 (length data))).
Proof.
  intros Hlen. unfold baseline_filter64, F64.convolve_same.
  change (F64.ones_div FILTER_SIZE FILTER_SIZE)
    with (repeat (PrimFloat.div 1 (F64.of_int 25)) 25).
  assert (La : length (F64.of_ints data) = length data) by apply length_map.
  rewrite La, repeat_length.
  replace (length data =? 0)%nat with false by (symmetry; apply Nat.eqb_neq; lia).
  replace (length data <? 25)%nat with false by (symmetry; apply Nat.ltb_ge; lia).
  cbn [orb Nat.eqb]. rewrite rev_repeat, La.
  unfold F64.subtract. rewrite length_map, length_seq, La, Nat.eqb_refl.
  rewrite <- La at 1. rewrite zip_sub64_seq, La. f_equal.
  apply map_ext. intros i. cbn [Nat.add]. f_equal.
  unfold F64.of_ints. change 0%float with (F64.of_int 0). apply map_nth.
Qed.

Lemma slice_repeat {A} (x : A) (n : nat) (a b : Z) :
  0 <= a -> b <= Z.of_nat n ->
  Py.slice (repeat x n) a b = repeat x (Z.to_nat (b - a)).
Proof.
  intros Ha Hb. unfold Py.slice. rewrite repeat_skipn. apply repeat_firstn. lia.
Qed.

(** C1, as the code has it.  On a window of at least 25 samples the
    filter returns as many values, and the value at index i is the raw
    sample minus the dot product, in binary64 and by whatever routine
    numpy dispatches to, of the samples at distance at most 12 that
    exist with as many weights, each the binary64 value of 1/25.  The
    weight stays 1/25 at the edges, where 13 to 24 samples take part
    (the missing ones count as zeros) and 25 take part exactly at the
    indices 12 .. n-13.  On a constant input the value at i is
    therefore decided by the constant and by the number of samples in
    the window at i. *)
Theorem baseline_filter_window_mean (dot : list float -> list float -> float)
        (data : list Z) (i : Z) :
  25 <= Z.of_nat (length data) -> 0 <= i < Z.of_nat (length data) ->
  baseline_filter64 dot data = Some (filtered64_of dot data)
  /\ length (filtered64_of dot data) = length data
  /\ Py.getitem 0%float (filtered64_of dot data) i
     = PrimFloat.sub
         (F64.of_int (Py.getitem 0 data i))
         (dot (F64.of_ints (Py.slice data (Z.max 0 (i - 12))
                                     (Z.min (Z.of_nat (length data)) (i + 13))))
              (repeat (PrimFloat.div 1 (F64.of_int 25))
                      (Z.to_nat (window_count (Z.of_nat (length data)) i))))
  /\ Z.of_nat (length (Py.slice data (Z.max 0 (i - 12))
                                (Z.min (Z.of_nat (length data)) (i + 13))))
     = window_count (Z.of_nat (length data)) i
  /\ 13 <= window_count (Z.of_nat (length data)) i <= 25
  /\ (window_count (Z.of_nat (length data)) i = 25
      <-> 12 <= i < Z.of_nat (length data) - 12)
  /\ (forall c,
        data = repeat c (length data) ->
        Py.getitem 0%float (filtered64_of dot data) i
        = PrimFloat.sub
            (F64.of_int c)
            (dot (repeat (F64.of_int c)
                         (Z.to_nat (window_count (Z.of_nat (length data)) i)))
                 (repeat (PrimFloat.div 1 (F64.of_int 25))
                         (Z.to_nat (window_count (Z.of_nat (length data)) i))))).
Proof.
  intros Hlen Hi.
  assert (E : baseline_filter64 dot data = Some (filtered64_of dot data))
    by (unfold filtered64_of; now rewrite (baseline_filter64_entries dot data ltac:(lia))).
  assert (L : length (filtered64_of dot data) = length data).
  { unfold filtered64_of. rewrite (baseline_filter64_entries dot data ltac:(lia)).
    now rewrite length_map, length_seq. }
  assert (V : Py.getitem 0%float (filtered64_of dot data) i
     = PrimFloat.sub
         (F64.of_int (Py.getitem 0 data i))
         (dot (F64.of_ints (Py.slice data (Z.max 0 (i - 12))
                                     (Z.min (Z.of_nat (length data)) (i + 13))))
              (repeat (PrimFloat.div 1 (F64.of_int 25))
                      (Z.to_nat (window_count (Z.of_nat (length data)) i))))).
  { unfold filtered64_of, Py.getitem.
    rewrite (baseline_filter64_entries dot data ltac:(lia)).
    set (F := fun k : nat => _).
    rewrite (nth_indep _ 0%float (F 0%nat)) by (rewrite length_map, length_seq; lia).
    rewrite map_nth, seq_nth by lia. cbn [Nat.add]. unfold F.
    rewrite correlate_window by (unfold F64.of_ints; rewrite length_map; lia).
    unfold F64.of_ints. rewrite length_map, Z2Nat.id by lia.
    unfold Py.slice. now rewrite skipn_map, firstn_map. }
  split; [exact E|]. split; [exact L|]. split; [exact V|].
  split; [unfold Py.slice, window_count; rewrite length_firstn, length_skipn; lia|].
  split; [unfold window_count; lia|].
  split; [unfold window_count; lia|].
  intros c Hc. rewrite V. rewrite Hc at 1 2.
  unfold Py.getitem. rewrite nth_repeat_lt by lia. f_equal. f_equal.
  unfold F64.of_ints. rewrite slice_repeat by lia. rewrite map_repeat.
  unfold window_count. reflexivity.
Qed.

Lemma baseline_filter_window_mean_witness :
  25 <= Z.of_nat (length data_constant)
  /\ 0 <= 0 < Z.of_nat (length data_constant)
  /\ window_count (Z.of_nat (length data_constant)) 0 = 13
  /\ Py.getitem 0%float (filtered64_of F64.DOUBLE_dot data_constant) 0
     = PrimFloat.sub
         (F64.of_int 2000)
         (F64.DOUBLE_dot
            (repeat (F64.of_int 2000)
                    (Z.to_nat (window_count (Z.of_nat (length data_constant)) 0)))
            (repeat (PrimFloat.div 1 (F64.of_int 25))
                    (Z.to_nat (window_count (Z.of_nat (length data_constant)) 0)))).
Proof.
  assert (L : 25 <= Z.of_nat (length data_constant)) by (vm_compute; discriminate).
  assert (I : 0 <= 0 < Z.of_nat (length data_constant))
    by (split; vm_compute; [discriminate | reflexivity]).
  split; [exact L|]. split; [exact I|]. split; [reflexivity|].
  exact (proj2 (proj2 (proj2 (proj2 (proj2 (proj2
           (baseline_filter_window_mean F64.DOUBLE_dot data_constant 0 L I))))))
           2000 eq_refl).
Defined.

(** C1 as stated fails: on one second of the constant 2000 the output
    at index 0 is 2000 - 13*80 = 960, not 0, while the mean of the 13
    samples the window holds there is 2000; it is 0 from index 12 to
    237.  On the constant 4095 it is not 0 there either, but a rounding
    residue below zero (with numpy's own dot loop). *)
Lemma constant_input_edge_not_zero :
  baseline_filter64 F64.DOUBLE_dot data_constant
  = Some (filtered64_of F64.DOUBLE_dot data_constant)
  /\ Py.getitem 0%float (filtered64_of F64.DOUBLE_dot data_constant) 0 = 960%float
  /\ Py.getitem 0%float (filtered64_of F64.DOUBLE_dot data_constant) 249 = 960%float
  /\ Py.getitem 0%float (filtered64_of F64.DOUBLE_dot data_constant) 11 = 80%float
  /\ Py.getitem 0%float (filtered64_of F64.DOUBLE_dot data_constant) 12 = 0%float
  /\ Py.slice data_constant (Z.max 0 (0 - 12)) (Z.min 250 (0 + 13)) = repeat 2000 13
  /\ PrimFloat.eqb (Py.getitem 0%float (filtered64_of F64.DOUBLE_dot data_constant) 0)
                   0%float = false
  /\ PrimFloat.ltb
       (Py.getitem 0%float (filtered64_of F64.DOUBLE_dot data_constant_4095) 100)
       0%float = true.
Proof. conjs; vm_compute; reflexivity. Qed.

(** On the signals the detector is run on below, the filter in binary64
    (numpy's own dot loop) and the filter in exact arithmetic return the
    same values: every product rounds to an integer there, and every
    partial sum is one. *)
Lemma filters_agree_on_examples :
  Forall (fun data =>
            map F64.to_Q (filtered64_of F64.DOUBLE_dot data)
            = map (fun q => Some (this q)) (filtered_of data))
         [data_two_beats; data_twin_peaks; data_crowded; data_fast; data_constant].
Proof. repeat constructor; vm_compute; reflexivity. Qed.

(** ** The threshold test against the real square root *)

Section Threshold.

Lemma Q2R_Qcplus (a b : Qc) : Q2R (a + b)%Qc = (Q2R a + Q2R b)%R.
Proof.
  unfold Qcplus. cbn [this Q2Qc].
  rewrite (Qeq_eqR _ _ (Qred_correct _)). apply Q2R_plus.
Qed.

Lemma Q2R_Qcminus (a b : Qc) : Q2R (a - b)%Qc = (Q2R a - Q2R b)%R.
Proof.
  unfold Qcminus, Qcopp. rewrite Q2R_Qcplus. cbn [this Q2Qc].
  rewrite (Qeq_eqR _ _ (Qred_correct _)), Q2R_opp. reflexivity.
Qed.

Lemma Q2R_Qcmult (a b : Qc) : Q2R (a * b)%Qc = (Q2R a * Q2R b)%R.
Proof.
  unfold Qcmult. cbn [this Q2Qc].
  rewrite (Qeq_eqR _ _ (Qred_correct _)). apply Q2R_mult.
Qed.

Lemma ltb_Rlt (a b : Qc) : Np.ltb a b = true <-> (Q2R a < Q2R b)%R.
Proof.
  unfold Np.ltb. split.
  - intros H. apply Qlt_Rlt. change (a ?= b)%Qc with (this a ?= this b)%Q in H.
    rewrite Qlt_alt. now destruct (this a ?= this b)%Q.
  - intros H. apply Rlt_Qlt in H. rewrite Qlt_alt in H.
    change (a ?= b)%Qc with (this a ?= this b)%Q. now rewrite H.
Qed.

Lemma nine_quarters : Q2R (Np.of_int 9 / Np.of_int 4)%Qc = (9 / 4)%R.
Proof.
  replace (this (Np.of_int 9 / Np.of_int 4)%Qc) with (9 # 4)%Q by (vm_compute; reflexivity).
  unfold Q2R. cbn [Qnum Qden]. lra.
Qed.

(** The test on the squares is the test [x > m + 1.5 * sqrt var] of the
    code, read over the reals, whenever the variance is not negative. *)
Lemma gt_mean_plus_1_5_std_real (x m var : Qc) :
  (0 <= Q2R var)%R ->
  Np.gt_mean_plus_1_5_std x m var = true
  <-> (Q2R x > Q2R m + 15 / 10 * sqrt (Q2R var))%R.
Proof.
  intros Hv. unfold Np.gt_mean_plus_1_5_std.
  rewrite andb_true_iff, !ltb_Rlt, !Q2R_Qcmult, !Q2R_Qcminus, nine_quarters.
  pose proof (sqrt_pos (Q2R var)) as Hs.
  pose proof (sqrt_sqrt (Q2R var) Hv) as Hss.
  set (s := sqrt (Q2R var)) in *. set (d := (Q2R x - Q2R m)%R).
  split.
  - intros [Hd Hsq]. rewrite <- Hss in Hsq.
    assert (0 < d)%R by (unfold d; lra).
    assert (15 / 10 * s < d)%R by nra.
    unfold d in *. lra.
  - intros H. assert (15 / 10 * s < d)%R by (unfold d; lra).
    split; [unfold d in *; lra|]. rewrite <- Hss. nra.
Qed.

Lemma Q2R_Qcinv_nonneg (a : Qc) : (0 <= Q2R a)%R -> (0 <= Q2R (/ a)%Qc)%R.
Proof.
  intros Ha. unfold Qcinv. cbn [this Q2Qc].
  rewrite (Qeq_eqR _ _ (Qred_correct _)).
  destruct (Qeq_dec (this a) 0) as [Hz|Hnz].
  - rewrite (Qeq_eqR _ _ (Qinv_comp _ _ Hz)). unfold Q2R. cbn. lra.
  - rewrite Q2R_inv by exact Hnz.
    assert (Q2R a <> 0%R).
    { intros E. apply Hnz. apply eqR_Qeq. rewrite E. unfold Q2R. cbn. lra. }
    left. apply Rinv_0_lt_compat. lra.
Qed.

Lemma of_nat_nonneg (n : nat) : (0 <= Q2R (Np.of_int (Z.of_nat n)))%R.
Proof.
  unfold Np.of_int. cbn [this Q2Qc]. rewrite (Qeq_eqR _ _ (Qred_correct _)).
  unfold Q2R, inject_Z. cbn [Qnum Qden]. rewrite Rinv_1, Rmult_1_r.
  apply IZR_le. lia.
Qed.

Lemma squares_sum_nonneg (m : Qc) (x : list Qc) :
  (0 <= Q2R (Np.qsum (map (fun y => (y - m) * (y - m))%Qc x)))%R.
Proof.
  induction x as [|y x IH].
  - unfold Q2R. cbn. lra.
  - cbn [map]. rewrite qsum_cons, Q2R_Qcplus, Q2R_Qcmult.
    pose proof (Rle_0_sqr (Q2R (y - m)%Qc)) as Hsq. unfold Rsqr in Hsq. lra.
Qed.

(** The variance of a window is never negative. *)
Lemma variance_nonneg (x : list Qc) : (0 <= Q2R (Np.variance x))%R.
Proof.
  unfold Np.variance, Np.mean at 1. unfold Qcdiv. rewrite Q2R_Qcmult.
  apply Rmult_le_pos.
  - apply squares_sum_nonneg.
  - apply Q2R_Qcinv_nonneg, of_nat_nonneg.
Qed.

(** The first test of [is_peak] is the threshold of the code:
    [filtered_data[i] > signal_mean + 1.5 * signal_std], over the reals. *)
Lemma threshold_test_real (filtered_data : list Qc) (x : Qc) :
  Np.gt_mean_plus_1_5_std x (Np.mean filtered_data) (Np.variance filtered_data) = true
  <-> (Q2R x > Q2R (Np.mean filtered_data)
               + 15 / 10 * sqrt (Q2R (Np.variance filtered_data)))%R.
Proof. apply gt_mean_plus_1_5_std_real, variance_nonneg. Qed.

End Threshold.

(** ** What the peak detector guarantees *)

Section Peaks.

#[local] Open Scope Qc_scope.

Lemma ltb_lt (a b : Qc) : Np.ltb a b = true <-> a < b.
Proof.
  unfold Np.ltb. rewrite Qclt_alt. destruct (a ?= b); intuition discriminate.
Qed.

Lemma ltb_ge (a b : Qc) : Np.ltb a b = false -> b <= a.
Proof.
  intros H. apply Qcnot_lt_le. intros Hlt. apply ltb_lt in Hlt. congruence.
Qed.

Lemma running_max_ge (l : list Qc) (x : Qc) :
  x <= fold_left (fun m y => if Np.ltb m y then y else m) l x
  /\ forall y, In y l -> y <= fold_left (fun m y => if Np.ltb m y then y else m) l x.
Proof.
  revert x. induction l as [|z l IH]; intros x; cbn [fold_left].
  - split; [apply Qcle_refl | intros y []].
  - destruct (Np.ltb x z) eqn:E.
    + destruct (IH z) as [Hz Hl]. split.
      * apply Qcle_trans with z; [apply Qclt_le_weak; now apply ltb_lt | exact Hz].
      * intros y [<-|Hy]; [exact Hz | now apply Hl].
    + destruct (IH x) as [Hx Hl]. split; [exact Hx|].
      intros y [<-|Hy]; [|now apply Hl].
      apply Qcle_trans with x; [now apply ltb_ge | exact Hx].
Qed.

Lemma max_ge (l : list Qc) (y : Qc) : In y l -> y <= Np.max l.
Proof.
  destruct l as [|x l]; [intros []|]. cbn [Np.max].
  destruct (running_max_ge l x) as [Hx Hl].
  intros [<-|Hy]; [exact Hx | now apply Hl].
Qed.

Lemma nth_in_slice (f : list Qc) (lo hi j : Z) :
  (0 <= lo <= j)%Z -> (j < hi <= Z.of_nat (length f))%Z ->
  In (Py.getitem 0 f j) (Py.slice f lo hi).
Proof.
  intros Hlo Hhi. unfold Py.getitem, Py.slice.
  replace (Z.to_nat j) with (Z.to_nat lo + Z.to_nat (j - lo))%nat by lia.
  rewrite <- nth_skipn.
  rewrite <- (firstn_skipn (Z.to_nat (hi - lo)) (skipn (Z.to_nat lo) f)) at 1.
  rewrite app_nth1.
  - apply nth_In. rewrite length_firstn, length_skipn. lia.
  - rewrite length_firstn, length_skipn. lia.
Qed.

Lemma in_range (a b x : Z) : In x (Py.range a b) <-> (a <= x < b)%Z.
Proof.
  unfold Py.range. rewrite in_map_iff. split.
  - intros (k & <- & Hk). apply in_seq in Hk. lia.
  - intros H. exists (Z.to_nat (x - a)). split; [lia|]. apply in_seq. lia.
Qed.

(** Every emitted peak lies in 5 .. L-6, exceeds both neighbours and is
    at least every sample from i-15 up to i+14 (clamped): the window of
    the code stops one short of i+15. *)
Lemma peak_is_window_max (filtered_data : list Qc) (i : Z) :
  In i (find_peaks filtered_data) ->
  (5 <= i < Z.of_nat (length filtered_data) - 5)%Z
  /\ Py.getitem 0 filtered_data (i - 1) < Py.getitem 0 filtered_data i
  /\ Py.getitem 0 filtered_data (i + 1) < Py.getitem 0 filtered_data i
  /\ forall j, (Z.max 0 (i - 15) <= j < Z.min (Z.of_nat (length filtered_data)) (i + 15))%Z ->
               Py.getitem 0 filtered_data j <= Py.getitem 0 filtered_data i.
Proof.
  unfold find_peaks. rewrite filter_In, in_range. intros [Hi Hp].
  unfold is_peak in Hp. rewrite !andb_true_iff in Hp.
  destruct Hp as [[[_ Hl] Hr] Hm].
  split; [exact Hi|]. split; [now apply ltb_lt|]. split; [now apply ltb_lt|].
  intros j Hj. unfold Np.eqb in Hm. apply Qc_eq_bool_correct in Hm. rewrite Hm.
  apply max_ge. apply nth_in_slice; lia.
Qed.

End Peaks.

(** ** From the detector to the estimator *)

Lemma range_sorted (a b : Z) : StronglySorted Z.lt (Py.range a b).
Proof.
  unfold Py.range. generalize (Z.to_nat (b - a)) as n. generalize 0%nat as s.
  intros s n. revert s. induction n as [|n IH]; intros s; cbn [seq map].
  - constructor.
  - constructor; [apply IH|].
    apply Forall_forall. intros x Hx. apply in_map_iff in Hx as (k & <- & Hk).
    apply in_seq in Hk. lia.
Qed.

Lemma filter_sorted (P : Z -> bool) (l : list Z) :
  StronglySorted Z.lt l -> StronglySorted Z.lt (filter P l).
Proof.
  induction 1 as [|x l _ IH Hx]; cbn [filter]; [constructor|].
  destruct (P x); [|exact IH].
  constructor; [exact IH|].
  rewrite Forall_forall in *. intros y Hy. apply Hx.
  now apply filter_In in Hy.
Qed.

Lemma sorted_ascending (l : list Z) : StronglySorted Z.lt l -> ascending l.
Proof.
  induction 1 as [|x l _ IH Hx]; [exact I|].
  destruct l as [|y l]; [exact I|].
  split; [now inversion Hx | exact IH].
Qed.

(** The peaks come out strictly ascending. *)
Lemma find_peaks_ascending (filtered_data : list Qc) :
  ascending (find_peaks filtered_data).
Proof. apply sorted_ascending, filter_sorted, range_sorted. Qed.

(** The peaks of a window no longer than the buffer are indices of the
    buffer. *)
Lemma find_peaks_in_buffer (filtered_data : list Qc) :
  Z.of_nat (length filtered_data) <= MAX_POINTS ->
  Forall (fun p => 0 <= p < MAX_POINTS) (find_peaks filtered_data).
Proof.
  intros Hlen. apply Forall_forall. intros i Hi.
  destruct (peak_is_window_max filtered_data i Hi) as [Hr _]. lia.
Qed.

(** On a buffer snapshot with 2 to 21 peaks the estimate of
    [update_heart_rate] exists and is exact whenever it counts. *)
Lemma detected_heart_rate (data : list Z) :
  25 <= Z.of_nat (length data) <= MAX_POINTS ->
  2 <= Z.of_nat (length (find_peaks (filtered_of data))) <= MAX_INTERVALS + 1 ->
  exists h, heart_rate_of (find_peaks (filtered_of data)) = Some h
            /\ (MIN_HEART_RATE <= h <= MAX_HEART_RATE
                \/ MIN_HEART_RATE <= exact_bpm (find_peaks (filtered_of data))
                   <= MAX_HEART_RATE ->
                h = exact_bpm (find_peaks (filtered_of data))).
Proof.
  intros Hlen Hpeaks. apply heart_rate_in_window; [exact Hpeaks | |].
  - apply find_peaks_ascending.
  - apply find_peaks_in_buffer.
    destruct (filtered_length data ltac:(lia)) as [_ L]. rewrite L. lia.
Qed.

(** * Further properties of the code *)

(** ** The rolling buffer *)

Lemma keep_last_short (m : Z) (l : list Z) :
  Z.of_nat (length l) <= m -> keep_last m l = l.
Proof.
  intros H. unfold keep_last.
  replace (Z.to_nat (Z.of_nat (length l) - m)) with 0%nat by lia. reflexivity.
Qed.

Lemma keep_last_length (m : Z) (l : list Z) :
  0 <= m -> Z.of_nat (length (keep_last m l)) <= m.
Proof. intros H. unfold keep_last. rewrite length_skipn. lia. Qed.

Lemma keep_last_in (m : Z) (l : list Z) (x : Z) : In x (keep_last m l) -> In x l.
Proof.
  unfold keep_last. intros H.
  rewrite <- (firstn_skipn (Z.to_nat (Z.of_nat (length l) - m)) l).
  apply in_or_app. now right.
Qed.

(** Trimming before more values arrive changes nothing of what is kept
    in the end. *)
Lemma keep_last_app (m : Z) (a b : list Z) :
  keep_last m (keep_last m a ++ b) = keep_last m (a ++ b).
Proof.
  destruct (Z.le_gt_cases (Z.of_nat (length a)) m) as [Hs|Hl];
    [now rewrite (keep_last_short m a Hs)|].
  unfold keep_last. rewrite !length_app, !length_skipn, !skipn_app, !length_skipn.
  rewrite skipn_skipn.
  destruct (Z.le_gt_cases m 0) as [Hm|Hm].
  - rewrite !skipn_all2 by lia. reflexivity.
  - f_equal; f_equal; lia.
Qed.

Lemma deque_append_fold (m : Z) (xs d : list Z) :
  Z.of_nat (length d) <= m ->
  fold_left (Py.deque_append m) xs d = keep_last m (d ++ xs).
Proof.
  intros Hd. rewrite <- (keep_last_short m d Hd) at 1. clear Hd.
  revert d. induction xs as [|x xs IH]; intros d; cbn [fold_left].
  - now rewrite app_nil_r.
  - change (Py.deque_append m (keep_last m d) x)
      with (keep_last m (keep_last m d ++ [x])).
    rewrite keep_last_app, IH, <- app_assoc. reflexivity.
Qed.

Lemma absorb_buffer (es : list SampleEvent) (st : Ingest) :
  buffer (fold_left absorb es st) =
  fold_left (Py.deque_append MAX_POINTS) (readings_of es) (buffer st).
Proof.
  revert st. induction es as [|e es IH]; intros st; [reflexivity|].
  cbn [fold_left]. rewrite IH. now destruct e.
Qed.

(** X1. The buffer is a strict FIFO: after a chunk is ingested it holds
    the last [MAX_POINTS] values of what it held followed by the
    Readings of the chunk, in arrival order. *)
Theorem buffer_keeps_most_recent (raw_data : Py.str) (buf : list Z) :
  Z.of_nat (length buf) <= MAX_POINTS ->
  buffer (ingest raw_data buf)
  = keep_last MAX_POINTS (buf ++ readings_of (parse_chunk raw_data)).
Proof.
  intros H. rewrite ingest_parse_chunk, absorb_buffer. cbn [buffer].
  now apply deque_append_fold.
Qed.

Lemma buffer_keeps_most_recent_witness :
  Z.of_nat (length data_two_beats) <= MAX_POINTS
  /\ buffer (ingest chunk_example data_two_beats)
     = keep_last MAX_POINTS (data_two_beats ++ [123; 45]).
Proof.
  split; [vm_compute; discriminate|].
  exact (buffer_keeps_most_recent chunk_example data_two_beats
           ltac:(vm_compute; discriminate)).
Defined.

(** X2. A chunk boundary acts as a line boundary: ingesting two chunks
    one after the other fills the buffer exactly as ingesting them
    joined by a newline, so a number cut in two by a read arrives as two
    numbers. *)
Theorem chunk_boundary_is_newline (first second : Py.str) (buf : list Z) :
  buffer (ingest second (buffer (ingest first buf)))
  = buffer (ingest (first ++ Py.newline :: second) buf).
Proof.
  rewrite !ingest_parse_chunk, !absorb_buffer. cbn [buffer].
  unfold parse_chunk at 3. rewrite split_app_sep, flat_map_app.
  fold (parse_chunk first) (parse_chunk second).
  unfold readings_of at 3. rewrite flat_map_app, fold_left_app. reflexivity.
Qed.

Lemma reading_not_sentinel (line : Py.str) (v : Z) :
  In (Reading v) (event_of_line line) -> v <> -1.
Proof.
  unfold event_of_line. destruct (Py.int (Py.strip line)) as [w|]; [|intros []].
  destruct (w =? -1) eqn:E; intros [H|[]]; [discriminate|].
  injection H as <-. now apply Z.eqb_neq.
Qed.

Lemma readings_not_sentinel (raw_data : Py.str) :
  Forall (fun v => v <> -1) (readings_of (parse_chunk raw_data)).
Proof.
  apply Forall_forall. intros v Hv. unfold readings_of in Hv.
  apply in_flat_map in Hv as (e & He & Hv).
  destruct e as [w|]; [|destruct Hv]. destruct Hv as [<-|[]].
  unfold parse_chunk in He. apply in_flat_map in He as (line & _ & He).
  exact (reading_not_sentinel line w He).
Qed.

Lemma ingest_buffer_kept (raw_data : Py.str) (buf : list Z) :
  Z.of_nat (length buf) <= MAX_POINTS -> Forall (fun v => v <> -1) buf ->
  Z.of_nat (length (buffer (ingest raw_data buf))) <= MAX_POINTS
  /\ Forall (fun v => v <> -1) (buffer (ingest raw_data buf)).
Proof.
  intros Hlen Hall. rewrite ingest_parse_chunk, absorb_buffer. cbn [buffer].
  rewrite deque_append_fold by exact Hlen. split.
  - apply keep_last_length. rewrite max_points_value. lia.
  - apply Forall_forall. intros v Hv. apply keep_last_in in Hv.
    apply in_app_or in Hv as [Hv|Hv].
    + rewrite Forall_forall in Hall. now apply Hall.
    + pose proof (readings_not_sentinel raw_data) as R.
      rewrite Forall_forall in R. now apply R.
Qed.

(** Whatever holds of the buffer and of the plot before a tick, and of
    the buffer the tick's ingestion builds, holds of both afterwards. *)
Lemma update_plot_buffers (P : list Z -> Prop) (input : SerialInput) (now : float)
      (app : ECGApp) :
  P (data_buffer app) -> P (plot_curve app) ->
  (forall raw_data, input = Waiting raw_data ->
                    P (buffer (ingest raw_data (data_buffer app)))) ->
  P (data_buffer (update_plot input now app)) /\ P (plot_curve (update_plot input now app)).
Proof.
  intros Hb Hp Hnew. unfold update_plot.
  destruct (negb (serial_open app)); [now split|].
  destruct input as [raw_data|]; [|now split].
  specialize (Hnew raw_data eq_refl).
  destruct (Z.of_nat (length raw_data) <=? 0); [now split|].
  destruct (0 <? new_data_count _); [|now split].
  destruct (PrimFloat.leb 1 _); [|now split].
  destruct (negb _ && _); [|now split].
  match goal with |- context [update_heart_rate ?d ?a] =>
    pose proof (update_heart_rate_frame d a) as F end.
  unfold same_display in F. cbn in F |- *.
  destruct F as (_ & _ & Fb & _ & _ & _ & Fp). rewrite Fb, Fp. now split.
Qed.

Lemma reachable_buffers (app : ECGApp) :
  reachable app ->
  (Z.of_nat (length (data_buffer app)) <= MAX_POINTS
   /\ Forall (fun v => v <> -1) (data_buffer app))
  /\ (Z.of_nat (length (plot_curve app)) <= MAX_POINTS
      /\ Forall (fun v => v <> -1) (plot_curve app)).
Proof.
  induction 1 as [t0|outcome now app _ IH|input now app _ IH _].
  - cbn [init data_buffer plot_curve length]. rewrite max_points_value.
    repeat split; (lia || constructor).
  - destruct IH as [Hb Hp]. unfold toggle_connection.
    destruct (negb (serial_open app)); [|now split].
    destruct outcome; cbn [log_debug data_buffer plot_curve]; now split.
  - destruct IH as [Hb Hp].
    apply (update_plot_buffers
             (fun l => Z.of_nat (length l) <= MAX_POINTS /\ Forall (fun v => v <> -1) l));
      [exact Hb | exact Hp |].
    intros raw_data _. apply ingest_buffer_kept; apply Hb.
Qed.

(** X3. In every reachable state the buffer holds at most [MAX_POINTS]
    samples, and so does the plotted waveform. *)
Theorem buffer_never_exceeds_capacity (app : ECGApp) :
  reachable app ->
  Z.of_nat (length (data_buffer app)) <= MAX_POINTS
  /\ Z.of_nat (length (plot_curve app)) <= MAX_POINTS.
Proof. intros R. destruct (reachable_buffers app R) as [[Hb _] [Hp _]]. now split. Qed.

Lemma buffer_never_exceeds_capacity_witness :
  reachable app_beating
  /\ length (data_buffer app_beating) = 250%nat
  /\ Z.of_nat (length (data_buffer app_beating)) <= MAX_POINTS.
Proof.
  split; [exact app_beating_reachable|].
  split; [vm_compute; reflexivity|].
  exact (proj1 (buffer_never_exceeds_capacity app_beating app_beating_reachable)).
Defined.

(** X4. The lead-off sentinel -1 is never stored: in every reachable
    state no sample of the buffer or of the plotted waveform is -1. *)
Theorem sentinel_never_stored (app : ECGApp) :
  reachable app ->
  Forall (fun v => v <> -1) (data_buffer app)
  /\ Forall (fun v => v <> -1) (plot_curve app).
Proof. intros R. destruct (reachable_buffers app R) as [[_ Hb] [_ Hp]]. now split. Qed.

Lemma sentinel_never_stored_witness :
  reachable app_reconnected
  /\ plot_curve app_reconnected = [100]
  /\ Forall (fun v => v <> -1) (plot_curve app_reconnected).
Proof.
  split; [exact app_reconnected_reachable|].
  split; [vm_compute; reflexivity|].
  exact (proj2 (sentinel_never_stored app_reconnected app_reconnected_reachable)).
Defined.

(** ** Line endings *)

Lemma parse_chunk_snoc_space (s : Py.str) (c : ascii) :
  Py.isspace c = true -> parse_chunk (s ++ [c]) = parse_chunk s.
Proof.
  intros Hc. unfold parse_chunk. rewrite split_snoc.
  destruct (Ascii.eqb c Py.newline).
  - rewrite flat_map_app. cbn [flat_map]. rewrite event_of_line_nil.
    now rewrite !app_nil_r.
  - pose proof (app_removelast_last [] (split_not_nil Py.newline s)) as E.
    rewrite E at 3. rewrite !flat_map_app. cbn [flat_map].
    now rewrite event_of_line_snoc_space by exact Hc.
Qed.

Lemma parse_chunk_app_newline (a b : Py.str) :
  parse_chunk (a ++ Py.newline :: b) = parse_chunk a ++ parse_chunk b.
Proof. unfold parse_chunk. now rewrite split_app_sep, flat_map_app. Qed.

(** X5. Carriage returns before the newlines are ignored: lines ended by
    CR LF give the same events, and leave the same buffer, count and
    flag, as the same lines ended by LF. *)
Theorem crlf_as_lf (lines : list Py.str) (buf : list Z) :
  parse_chunk (join_lines [carriage_return; Py.newline] lines)
  = parse_chunk (join_lines [Py.newline] lines)
  /\ ingest (join_lines [carriage_return; Py.newline] lines) buf
     = ingest (join_lines [Py.newline] lines) buf.
Proof.
  assert (E : parse_chunk (join_lines [carriage_return; Py.newline] lines)
              = parse_chunk (join_lines [Py.newline] lines)).
  { induction lines as [|l ls IH]; [reflexivity|].
    unfold join_lines in *. cbn [flat_map].
    set (crlf_rest := flat_map (fun l => l ++ [carriage_return; Py.newline]) ls) in *.
    set (lf_rest := flat_map (fun l => l ++ [Py.newline]) ls) in *.
    replace ((l ++ [carriage_return; Py.newline]) ++ crlf_rest)
      with ((l ++ [carriage_return]) ++ Py.newline :: crlf_rest)
      by (now rewrite <- !app_assoc).
    replace ((l ++ [Py.newline]) ++ lf_rest) with (l ++ Py.newline :: lf_rest)
      by (now rewrite <- app_assoc).
    rewrite !parse_chunk_app_newline, IH.
    now rewrite parse_chunk_snoc_space by reflexivity. }
  split; [exact E|]. now rewrite !ingest_parse_chunk, E.
Qed.

(** ** The tick, case by case *)

Lemma update_heart_rate_runs (data : list Z) (app : ECGApp) :
  heart_rate_runs (update_heart_rate data app) = S (heart_rate_runs app).
Proof.
  unfold update_heart_rate, report_heart_rate.
  destruct (baseline_filter data) as [f|]; [|reflexivity].
  destruct (2 <=? _); [|reflexivity].
  destruct (heart_rate_of _) as [h|]; [|reflexivity].
  destruct ((MIN_HEART_RATE <=? h) && (h <=? MAX_HEART_RATE)); [|reflexivity].
  cbn [heart_rate_history set_history]. now destruct (int_mean _).
Qed.

Lemma nonempty_length (raw_data : Py.str) :
  raw_data <> [] -> (Z.of_nat (length raw_data) <=? 0) = false.
Proof. intros H. apply Z.leb_gt. destruct raw_data; [congruence | cbn [length]; lia]. Qed.

(** X6. The quality label is recomputed at every tick that reads bytes
    on an open port and has no memory: it reads "Lead Off" exactly when
    a line of this tick's chunk is the sentinel, "Good" otherwise,
    whatever it read before. *)
Theorem quality_label_not_sticky (raw_data : Py.str) (now : float) (app : ECGApp) :
  serial_open app = true -> raw_data <> [] ->
  signal_quality_label (update_plot (Waiting raw_data) now app)
  = if existsb is_lead_off (parse_chunk raw_data) then QualityLeadOff else QualityGood.
Proof.
  intros Hopen Hne. unfold update_plot. rewrite Hopen, (nonempty_length _ Hne).
  cbn [negb].
  assert (L : lead_off_detected (ingest raw_data (data_buffer app))
              = existsb is_lead_off (parse_chunk raw_data))
    by (now rewrite ingest_parse_chunk, absorb_lead_off).
  destruct (0 <? new_data_count _); [|cbn; now rewrite L].
  destruct (PrimFloat.leb 1 _); [|cbn; now rewrite L].
  destruct (negb _ && _); [|cbn; now rewrite L].
  match goal with |- context [update_heart_rate ?d ?a] =>
    pose proof (update_heart_rate_frame d a) as F end.
  unfold same_display in F. cbn in F |- *.
  destruct F as (_ & _ & _ & _ & _ & Fq & _). now rewrite Fq, L.
Qed.

Lemma quality_label_not_sticky_witness :
  serial_open app_one_second = true
  /\ signal_quality_label app_one_second = QualityGood
  /\ signal_quality_label (update_plot (Waiting chunk_lead_off) 5 app_one_second)
     = QualityLeadOff.
Proof.
  split; [reflexivity|]. split; [reflexivity|].
  rewrite (quality_label_not_sticky chunk_lead_off 5 app_one_second eq_refl
             ltac:(vm_compute; discriminate)).
  vm_compute. reflexivity.
Defined.

(** X7. A tick whose chunk holds no Reading changes the quality label
    and nothing else: buffer, plot, sample counter, clock, history and
    heart-rate label stay, so such ticks neither restart nor consume the
    one-second interval. *)
Theorem tick_without_reading (raw_data : Py.str) (now : float) (app : ECGApp) :
  serial_open app = true -> raw_data <> [] ->
  filter is_reading (parse_chunk raw_data) = [] ->
  update_plot (Waiting raw_data) now app
  = set_ingested (data_buffer app)
      (if existsb is_lead_off (parse_chunk raw_data) then QualityLeadOff else QualityGood)
      app.
Proof.
  intros Hopen Hne Hnone. unfold update_plot.
  rewrite Hopen, (nonempty_length _ Hne). cbn [negb].
  rewrite new_data_count_readings, Hnone. cbn [length Z.of_nat Z.ltb Z.compare].
  rewrite ingest_parse_chunk, absorb_lead_off, (absorb_no_reading _ _ Hnone).
  reflexivity.
Qed.

Lemma tick_without_reading_witness :
  serial_open app_one_second = true
  /\ filter is_reading (parse_chunk chunk_lead_off) = []
  /\ update_plot (Waiting chunk_lead_off) 5 app_one_second
     = set_ingested (data_buffer app_one_second) QualityLeadOff app_one_second.
Proof.
  split; [reflexivity|]. split; [vm_compute; reflexivity|].
  rewrite (tick_without_reading chunk_lead_off 5 app_one_second eq_refl
             ltac:(vm_compute; discriminate) ltac:(vm_compute; reflexivity)).
  vm_compute. reflexivity.
Defined.

(** The run counter moves exactly under the nested conditions of
    [update_plot]. *)
Lemma heart_rate_due_runs (input : SerialInput) (now : float) (app : ECGApp) :
  heart_rate_runs (update_plot input now app)
  = if heart_rate_due input now app
    then S (heart_rate_runs app) else heart_rate_runs app.
Proof.
  unfold update_plot, heart_rate_due.
  destruct (serial_open app); cbn [negb andb]; [|now destruct input].
  destruct input as [raw_data|]; [|reflexivity].
  destruct (Z.of_nat (length raw_data) <=? 0); cbn [negb andb]; [reflexivity|].
  destruct (0 <? new_data_count _); cbn [andb]; [|reflexivity].
  cbn [data_buffer set_ingested data_count last_update_time set_plot].
  destruct (PrimFloat.leb 1 _); cbn [andb]; [|reflexivity].
  destruct (negb (lead_off_detected _)); cbn [andb]; [|reflexivity].
  destruct (SAMPLE_RATE <=? _); [|reflexivity].
  cbn [heart_rate_runs set_second]. now rewrite update_heart_rate_runs.
Qed.

Lemma readings_of_length (es : list SampleEvent) :
  length (readings_of es) = length (filter is_reading es).
Proof.
  induction es as [|[v|] es IH]; [reflexivity| |exact IH].
  cbn [readings_of flat_map filter is_reading app length] in *.
  now rewrite <- IH.
Qed.

Lemma keep_last_length_min (m : Z) (l : list Z) :
  0 <= m -> Z.of_nat (length (keep_last m l)) = Z.min (Z.of_nat (length l)) m.
Proof. intros H. unfold keep_last. rewrite length_skipn. lia. Qed.

(** X8. When a tick recomputes the heart rate, in terms of what arrived:
    a tick enters [update_heart_rate] at most once, and exactly when the
    port is open, the chunk holds a Reading, one second or more has
    passed since the clock was set, no line of the chunk is the
    sentinel, and the samples held before plus the Readings of the
    chunk number at least [SAMPLE_RATE]. *)
Theorem heart_rate_run_condition (raw_data : Py.str) (now : float) (app : ECGApp) :
  Z.of_nat (length (data_buffer app)) <= MAX_POINTS ->
  heart_rate_runs (update_plot (Waiting raw_data) now app)
  = if serial_open app
       && (0 <? Z.of_nat (length (filter is_reading (parse_chunk raw_data))))
       && PrimFloat.leb 1 (PrimFloat.sub now (last_update_time app))
       && negb (existsb is_lead_off (parse_chunk raw_data))
       && (SAMPLE_RATE <=? Z.of_nat (length (data_buffer app))
                           + Z.of_nat (length (filter is_reading (parse_chunk raw_data))))
    then S (heart_rate_runs app) else heart_rate_runs app.
Proof.
  intros Hlen. rewrite heart_rate_due_runs. unfold heart_rate_due.
  rewrite new_data_count_readings.
  rewrite ingest_parse_chunk, absorb_lead_off, absorb_buffer. cbn [buffer lead_off_detected orb].
  rewrite (deque_append_fold _ _ _ Hlen).
  assert (B : (SAMPLE_RATE <=? Z.of_nat (length (keep_last MAX_POINTS
                 (data_buffer app ++ readings_of (parse_chunk raw_data)))))
              = (SAMPLE_RATE <=? Z.of_nat (length (data_buffer app))
                  + Z.of_nat (length (filter is_reading (parse_chunk raw_data))))).
  { rewrite keep_last_length_min by (rewrite max_points_value; lia).
    rewrite length_app, readings_of_length, max_points_value.
    change SAMPLE_RATE with 250.
    destruct (250 <=? Z.of_nat (length (data_buffer app))
                      + Z.of_nat (length (filter is_reading (parse_chunk raw_data)))) eqn:E.
    - apply Z.leb_le in E. apply Z.leb_le. lia.
    - apply Z.leb_gt in E. apply Z.leb_gt. lia. }
  rewrite B.
  destruct raw_data as [|c raw_data].
  - rewrite parse_chunk_nil. cbn [filter length Z.of_nat Z.ltb Z.compare].
    now rewrite !andb_false_r.
  - replace (Z.of_nat (length (c :: raw_data)) <=? 0) with false
      by (symmetry; apply Z.leb_gt; cbn [length]; lia).
    cbn [negb]. now rewrite andb_true_r.
Qed.

Lemma heart_rate_run_condition_witness :
  Z.of_nat (length (data_buffer (toggle_connection Opened 0 (init 0)))) <= MAX_POINTS
  /\ heart_rate_runs app_beating = 1%nat.
Proof.
  assert (L : Z.of_nat (length (data_buffer (toggle_connection Opened 0 (init 0))))
              <= MAX_POINTS) by (vm_compute; discriminate).
  split; [exact L|]. unfold app_beating.
  rewrite (heart_rate_run_condition chunk_two_beats 2 _ L).
  vm_compute. reflexivity.
Defined.

(** X9. The once-per-second clock: in a tick on an open port whose chunk
    holds Readings, if one second or more has passed the sample counter
    returns to 0 and the clock is set to now, whether or not the heart
    rate was recomputed; otherwise the counter grows by the number of
    Readings, the clock stays and the heart rate is not recomputed. *)
Theorem once_per_second_clock (raw_data : Py.str) (now : float) (app : ECGApp) :
  serial_open app = true ->
  filter is_reading (parse_chunk raw_data) <> [] ->
  if PrimFloat.leb 1 (PrimFloat.sub now (last_update_time app))
  then data_count (update_plot (Waiting raw_data) now app) = 0
       /\ last_update_time (update_plot (Waiting raw_data) now app) = now
  else data_count (update_plot (Waiting raw_data) now app)
       = data_count app + Z.of_nat (length (filter is_reading (parse_chunk raw_data)))
       /\ last_update_time (update_plot (Waiting raw_data) now app) = last_update_time app
       /\ heart_rate_runs (update_plot (Waiting raw_data) now app) = heart_rate_runs app
       /\ hr_label (update_plot (Waiting raw_data) now app) = hr_label app.
Proof.
  intros Hopen Hsome. unfold update_plot. rewrite Hopen. cbn [negb].
  assert (Hne : raw_data <> [])
    by (intros ->; now rewrite parse_chunk_nil in Hsome).
  rewrite (nonempty_length _ Hne), new_data_count_readings.
  replace (0 <? Z.of_nat (length (filter is_reading (parse_chunk raw_data)))) with true
    by (symmetry; apply Z.ltb_lt;
        destruct (filter is_reading (parse_chunk raw_data));
        [congruence | cbn [length]; lia]).
  cbn [data_buffer set_ingested data_count last_update_time set_plot].
  destruct (PrimFloat.leb 1 _); [|cbn; tauto].
  cbn [data_count last_update_time set_second]. now split.
Qed.

Lemma once_per_second_clock_witness :
  serial_open app_one_second = true
  /\ filter is_reading (parse_chunk chunk_100) <> []
  /\ data_count (update_plot (Waiting chunk_100) 5 app_one_second) = 0
  /\ data_count (update_plot (Waiting chunk_100) 0.5 app_one_second) = 1.
Proof.
  assert (R : filter is_reading (parse_chunk chunk_100) <> [])
    by (vm_compute; discriminate).
  split; [reflexivity|]. split; [exact R|].
  split.
  - pose proof (once_per_second_clock chunk_100 5 app_one_second eq_refl R) as C.
    replace (PrimFloat.leb 1 (PrimFloat.sub 5 (last_update_time app_one_second)))
      with true in C by (vm_compute; reflexivity).
    exact (proj1 C).
  - pose proof (once_per_second_clock chunk_100 0.5 app_one_second eq_refl R) as C.
    replace (PrimFloat.leb 1 (PrimFloat.sub 0.5 (last_update_time app_one_second)))
      with false in C by (vm_compute; reflexivity).
    rewrite (proj1 C). vm_compute. reflexivity.
Defined.

(** X10. [update_heart_rate] writes the heart-rate label, its colour, the
    history, the debug log and its own run counter, and nothing else:
    connection, timer, buffer, clock, sample counter, quality label and
    plot are as they were; it counts exactly one run. *)
Theorem heart_rate_leaves_display (data : list Z) (app : ECGApp) :
  serial_open (update_heart_rate data app) = serial_open app
  /\ timer_active (update_heart_rate data app) = timer_active app
  /\ data_buffer (update_heart_rate data app) = data_buffer app
  /\ last_update_time (update_heart_rate data app) = last_update_time app
  /\ data_count (update_heart_rate data app) = data_count app
  /\ signal_quality_label (update_heart_rate data app) = signal_quality_label app
  /\ plot_curve (update_heart_rate data app) = plot_curve app
  /\ heart_rate_runs (update_heart_rate data app) = S (heart_rate_runs app).
Proof.
  pose proof (update_heart_rate_frame data app) as F. unfold same_display in F.
  pose proof (update_heart_rate_runs data app) as R. tauto.
Qed.

(** ** The peak detector *)

Section PeakProperties.

#[local] Open Scope Qc_scope.

(** X11. Every index the detector emits lies in 5 .. L-6, holds a value
    strictly above both neighbours and is at least every sample from
    i-15 up to i+14, clamped to the window. *)
Theorem emitted_peak_is_local_maximum (filtered_data : list Qc) (i : Z) :
  In i (find_peaks filtered_data) ->
  (5 <= i < Z.of_nat (length filtered_data) - 5)%Z
  /\ Py.getitem 0 filtered_data (i - 1) < Py.getitem 0 filtered_data i
  /\ Py.getitem 0 filtered_data (i + 1) < Py.getitem 0 filtered_data i
  /\ forall j, (Z.max 0 (i - 15) <= j < Z.min (Z.of_nat (length filtered_data)) (i + 15))%Z ->
               Py.getitem 0 filtered_data j <= Py.getitem 0 filtered_data i.
Proof. exact (peak_is_window_max filtered_data i). Qed.

Lemma emitted_peak_is_local_maximum_witness :
  find_peaks (filtered_of data_two_beats) = [50%Z; 150%Z]
  /\ Py.getitem 0 (filtered_of data_two_beats) (50 - 1)
     < Py.getitem 0 (filtered_of data_two_beats) 50.
Proof.
  assert (P : find_peaks (filtered_of data_two_beats) = [50%Z; 150%Z])
    by (vm_compute; reflexivity).
  split; [exact P|].
  refine (proj1 (proj2 (emitted_peak_is_local_maximum (filtered_of data_two_beats) 50 _))).
  rewrite P. now left.
Defined.

(** X12. Duplicate suppression, as far as it goes: two emitted peaks are
    never adjacent; two emitted peaks less than 15 samples apart hold
    exactly equal values; at exactly 15 samples apart the later one is
    at least as high as the earlier one. *)
Theorem close_peaks_are_equal (filtered_data : list Qc) (i j : Z) :
  In i (find_peaks filtered_data) -> In j (find_peaks filtered_data) -> (i < j)%Z ->
  (i + 2 <= j)%Z
  /\ ((j - i < 15)%Z -> Py.getitem 0 filtered_data i = Py.getitem 0 filtered_data j)
  /\ ((j - i = 15)%Z -> Py.getitem 0 filtered_data i <= Py.getitem 0 filtered_data j).
Proof.
  intros Hi Hj Hlt.
  destruct (peak_is_window_max filtered_data i Hi) as (Ri & _ & Hnext & Wi).
  destruct (peak_is_window_max filtered_data j Hj) as (Rj & Hprev & _ & Wj).
  split; [|split].
  - destruct (Z.eq_dec j (i + 1)) as [->|]; [|lia].
    replace (i + 1 - 1)%Z with i in Hprev by lia.
    exfalso. exact (Qclt_not_le _ _ Hprev (Qclt_le_weak _ _ Hnext)).
  - intros Hclose. apply Qcle_antisym; [apply Wj | apply Wi]; lia.
  - intros Hfar. apply Wj. lia.
Qed.

Lemma close_peaks_are_equal_witness :
  find_peaks (filtered_of data_twin_peaks) = [100%Z; 110%Z]
  /\ Py.getitem 0 (filtered_of data_twin_peaks) 100
     = Py.getitem 0 (filtered_of data_twin_peaks) 110.
Proof.
  assert (P : find_peaks (filtered_of data_twin_peaks) = [100%Z; 110%Z])
    by (vm_compute; reflexivity).
  split; [exact P|].
  refine (proj1 (proj2 (close_peaks_are_equal (filtered_of data_twin_peaks) 100 110
                          _ _ _)) _).
  - rewrite P. now left.
  - rewrite P. right. now left.
  - reflexivity.
  - reflexivity.
Defined.

(** X13. The peaks come out strictly ascending, each in 5 .. L-6; a
    window of fewer than 11 samples has none. *)
Theorem peaks_ascending_inside (filtered_data : list Qc) :
  ascending (find_peaks filtered_data)
  /\ Forall (fun i => 5 <= i < Z.of_nat (length filtered_data) - 5)%Z
            (find_peaks filtered_data)
  /\ ((length filtered_data < 11)%nat -> find_peaks filtered_data = []).
Proof.
  split; [apply find_peaks_ascending|]. split.
  - apply Forall_forall. intros i Hi.
    now destruct (peak_is_window_max filtered_data i Hi).
  - intros Hshort. unfold find_peaks, Py.range.
    replace (Z.to_nat (Z.of_nat (length filtered_data) - 5 - 5)) with 0%nat by lia.
    reflexivity.
Qed.

End PeakProperties.

(** ** The baseline filter at its limits *)

Section FilterProperties.

#[local] Open Scope Qc_scope.

Lemma convolve_same_length (a v : list Qc) :
  a <> [] -> v <> [] ->
  exists c, Np.convolve_same a v = Some c
            /\ length c = Nat.max (length a) (length v).
Proof.
  intros Ha Hv. unfold Np.convolve_same.
  destruct a as [|x a]; [congruence|]. destruct v as [|y v]; [congruence|].
  destruct (length (x :: a) <? length (y :: v))%nat eqn:E;
    eexists; (split; [reflexivity|]); rewrite length_map, length_seq.
  - apply Nat.ltb_lt in E. lia.
  - apply Nat.ltb_ge in E. lia.
Qed.

Lemma subtract_shapes (a b : list Qc) :
  length a <> length b -> length a <> 1%nat -> length b <> 1%nat ->
  Np.subtract a b = None.
Proof.
  intros Hab Ha Hb. unfold Np.subtract.
  replace (length a =? length b)%nat with false by (symmetry; now apply Nat.eqb_neq).
  destruct a as [|x [|y a]]; destruct b as [|u [|w b]]; cbn in *; congruence.
Qed.

Lemma subtract_broadcast (x : Qc) (b : list Qc) :
  exists out, Np.subtract [x] b = Some out /\ length out = length b.
Proof.
  unfold Np.subtract. destruct (length [x] =? length b)%nat eqn:E.
  - apply Nat.eqb_eq in E. destruct b as [|y [|z b]]; try discriminate.
    eexists. split; reflexivity.
  - eexists. split; [reflexivity | apply length_map].
Qed.

(** X15. On a window shorter than the filter the subtraction cannot pair
    the samples with the 25 values of the convolution: for no sample,
    or for 2 to 24 samples, the filter raises, and [update_heart_rate]
    logs the error and leaves label, colour and history as they were;
    a single sample is broadcast instead, and 25 values come out. *)
Theorem filter_needs_full_window :
  (forall data,
      (length data = 0 \/ 2 <= length data < 25)%nat ->
      baseline_filter data = None
      /\ forall app, update_heart_rate data app
                     = log_debug HeartRateError (enter_heart_rate app))
  /\ (forall x, exists out, baseline_filter [x] = Some out /\ length out = 25%nat).
Proof.
  assert (K : Np.ones_div FILTER_SIZE FILTER_SIZE <> []) by (vm_compute; discriminate).
  assert (KL : length (Np.ones_div FILTER_SIZE FILTER_SIZE) = 25%nat) by reflexivity.
  split.
  - intros data Hlen.
    assert (N : baseline_filter data = None).
    { unfold baseline_filter. destruct Hlen as [Hzero|Hshort].
      - destruct data; [reflexivity | discriminate].
      - assert (Hne : Np.of_ints data <> [])
          by (destruct data; [cbn in Hshort; lia | discriminate]).
        destruct (convolve_same_length _ _ Hne K) as (c & -> & Lc).
        unfold Np.of_ints in *. rewrite KL, length_map in Lc.
        apply subtract_shapes; rewrite ?length_map; lia. }
    split; [exact N|]. intros app. unfold update_heart_rate. now rewrite N.
  - intros x. unfold baseline_filter.
    destruct (convolve_same_length (Np.of_ints [x]) _ ltac:(discriminate) K)
      as (c & -> & Lc).
    destruct (subtract_broadcast (Np.of_int x) c) as (out & E & Lo).
    exists out. split; [exact E|]. rewrite Lo, Lc, KL. reflexivity.
Qed.

Lemma filter_needs_full_window_witness :
  (2 <= length data_short < 25)%nat
  /\ baseline_filter data_short = None
  /\ hr_label (update_heart_rate data_short app_after_five) = HrBpm 62.
Proof.
  assert (L : (length data_short = 0 \/ 2 <= length data_short < 25)%nat)
    by (right; vm_compute; split; repeat constructor).
  split; [vm_compute; split; repeat constructor|].
  destruct (proj1 filter_needs_full_window data_short L) as [N U].
  split; [exact N|]. rewrite U. vm_compute. reflexivity.
Defined.

End FilterProperties.

(** ** The smoother and the label *)

Lemma sum_between (lo hi : Z) (h : list Z) :
  Forall (fun v => lo <= v <= hi) h ->
  lo * Z.of_nat (length h) <= Py.sum h <= hi * Z.of_nat (length h).
Proof.
  induction 1 as [|x l Hx _ IH]; [cbn; lia|].
  rewrite sum_cons. cbn [length]. lia.
Qed.

(** X17. The smoothed value never leaves the range of what it averages:
    the integer mean of a non-empty history lies between its smallest
    and its largest value. *)
Theorem smoothed_within_extremes (h : list Z) (lo hi : Z) :
  history_ok h -> h <> [] -> Forall (fun v => lo <= v <= hi) h ->
  exists avg_hr, int_mean h = Some avg_hr /\ lo <= avg_hr <= hi.
Proof.
  intros Hok Hne Hall. destruct (int_mean_ok h Hok Hne) as [E _].
  exists (Py.sum h / Z.of_nat (length h)). split; [exact E|].
  pose proof (sum_between lo hi h Hall) as S.
  assert (0 < Z.of_nat (length h)) by (destruct h; [congruence | cbn [length]; lia]).
  split; [apply Z.div_le_lower_bound | apply Z.div_le_upper_bound]; lia.
Qed.

Lemma smoothed_within_extremes_witness :
  history_ok (heart_rate_history app_after_five)
  /\ exists avg_hr, int_mean (heart_rate_history app_after_five) = Some avg_hr
                    /\ 58 <= avg_hr <= 66.
Proof.
  split; [exact app_after_five_ok|].
  apply (smoothed_within_extremes _ 58 66 app_after_five_ok).
  - vm_compute; discriminate.
  - vm_compute. repeat constructor; discriminate.
Defined.

Lemma report_heart_rate_style (peaks : list Z) (app : ECGApp) :
  style_matches app -> style_matches (report_heart_rate peaks app).
Proof.
  intros H. unfold report_heart_rate.
  destruct (2 <=? _); [|intros v; discriminate].
  destruct (heart_rate_of peaks) as [h|]; [|exact H].
  destruct ((MIN_HEART_RATE <=? h) && (h <=? MAX_HEART_RATE)); [|intros v; discriminate].
  cbn [heart_rate_history set_history].
  destruct (int_mean _) as [avg|]; [|exact H].
  intros v E. cbn in E |- *. now injection E as <-.
Qed.

Lemma update_plot_style (input : SerialInput) (now : float) (app : ECGApp) :
  style_matches app -> style_matches (update_plot input now app).
Proof.
  intros H. unfold update_plot.
  destruct (negb (serial_open app)); [exact H|].
  destruct input as [raw_data|]; [|exact H].
  destruct (Z.of_nat (length raw_data) <=? 0); [exact H|].
  destruct (0 <? new_data_count _); [|exact H].
  destruct (PrimFloat.leb 1 _); [|exact H].
  destruct (negb _ && _); [|exact H].
  unfold update_heart_rate.
  destruct (baseline_filter _); [|exact H].
  match goal with |- style_matches (set_second _ (report_heart_rate ?p ?a)) =>
    exact (report_heart_rate_style p a H) end.
Qed.

(** X18. In every reachable state the colour of the heart-rate label is
    the one of the value it shows: blue below 60, red above 100, green
    from 60 to 100. *)
Theorem label_colour_matches_value (app : ECGApp) :
  reachable app ->
  forall avg_hr,
    hr_label app = HrBpm avg_hr ->
    hr_style app = (if avg_hr <? 60 then Blue else if 100 <? avg_hr then Red else Green).
Proof.
  intros R. change (style_matches app).
  induction R as [t0|outcome now app _ IH|input now app _ IH _].
  - intros v; discriminate.
  - unfold toggle_connection.
    destruct (negb (serial_open app)); [|exact IH]. destruct outcome; exact IH.
  - now apply update_plot_style.
Qed.

Lemma label_colour_matches_value_witness :
  reachable app_beating /\ hr_label app_beating = HrBpm 150 /\ hr_style app_beating = Red.
Proof.
  assert (L : hr_label app_beating = HrBpm 150) by (vm_compute; reflexivity).
  split; [exact app_beating_reachable|]. split; [exact L|].
  exact (label_colour_matches_value app_beating app_beating_reachable 150 L).
Defined.

(** ** The connection *)

Lemma reachable_timer (app : ECGApp) :
  reachable app -> timer_active app = true -> serial_open app = true.
Proof.
  induction 1 as [t0|outcome now app _ IH|input now app _ IH _].
  - discriminate.
  - unfold toggle_connection. destruct (serial_open app) eqn:O; cbn [negb].
    + discriminate.
    + destruct outcome; cbn; try reflexivity.
      intros T. specialize (IH T). congruence.
  - assert (F : serial_open (update_plot input now app) = serial_open app
                /\ timer_active (update_plot input now app) = timer_active app).
    { unfold update_plot.
      destruct (negb (serial_open app)); [now split|].
      destruct input as [raw_data|]; [|now split].
      destruct (Z.of_nat (length raw_data) <=? 0); [now split|].
      destruct (0 <? new_data_count _); [|now split].
      destruct (PrimFloat.leb 1 _); [|now split].
      destruct (negb _ && _); [|now split].
      match goal with |- context [update_heart_rate ?d ?a] =>
        pose proof (update_heart_rate_frame d a) as G end.
      unfold same_display in G. cbn in G |- *. tauto. }
    destruct F as [-> ->]. exact IH.
Qed.

Lemma closeEvent_closed (app : ECGApp) :
  serial_open (closeEvent app) = false
  /\ timer_active (closeEvent app) = timer_active app.
Proof. unfold closeEvent. destruct (serial_open app) eqn:O; now split. Qed.

(** X19. The timer and the port.  Until the window is closed, in every
    state reached by button presses and ticks, an active timer means an
    open port.  [closeEvent] closes the port and leaves the timer as it
    is, so after it the timer can be active on a closed port; every
    tick delivered then returns at the first guard of [update_plot]:
    the state stays the one [closeEvent] left, whatever would be read
    and however many ticks come. *)
Theorem timer_outlives_port_at_close :
  (forall app, reachable app -> timer_active app = true -> serial_open app = true)
  /\ (forall app,
        serial_open (closeEvent app) = false
        /\ timer_active (closeEvent app) = timer_active app)
  /\ (forall app,
        closing app ->
        serial_open app = false
        /\ exists before, reachable before /\ app = closeEvent before)
  /\ (forall input now app,
        update_plot input now (closeEvent app) = closeEvent app).
Proof.
  split; [exact reachable_timer|]. split; [exact closeEvent_closed|].
  assert (T : forall input now app,
             update_plot input now (closeEvent app) = closeEvent app).
  { intros input now app. unfold update_plot.
    now rewrite (proj1 (closeEvent_closed app)). }
  split; [|exact T].
  induction 1 as [app R|input now app _ IH _].
  - split; [apply closeEvent_closed|]. now exists app.
  - destruct IH as (O & before & R & ->). rewrite T.
    split; [apply closeEvent_closed|]. now exists before.
Qed.

Lemma timer_outlives_port_at_close_witness :
  reachable app_beating
  /\ timer_active app_beating = true /\ serial_open app_beating = true
  /\ timer_active (closeEvent app_beating) = true
  /\ serial_open (closeEvent app_beating) = false
  /\ update_plot (Waiting chunk_100) 3 (closeEvent app_beating) = closeEvent app_beating.
Proof.
  pose proof timer_outlives_port_at_close as (Open & Close & _ & Tick).
  split; [exact app_beating_reachable|]. split; [reflexivity|].
  split; [exact (Open app_beating app_beating_reachable eq_refl)|].
  split; [now rewrite (proj2 (Close app_beating))|].
  split; [exact (proj1 (Close app_beating))|].
  exact (Tick (Waiting chunk_100) 3%float app_beating).
Defined.

(** X20. What a press of the connect button resets and what it keeps.
    A successful connect empties the buffer and the history, zeroes the
    sample counter, sets the clock and starts the timer; a disconnect
    stops the timer and keeps buffer and history.  No press, whatever
    its outcome, changes the heart-rate label, its colour, the quality
    label or the plotted waveform: they show the previous session until
    a tick replaces them. *)
Theorem connect_resets_data_not_display (outcome : OpenOutcome) (now : float)
        (app : ECGApp) :
  (hr_label (toggle_connection outcome now app) = hr_label app
   /\ hr_style (toggle_connection outcome now app) = hr_style app
   /\ signal_quality_label (toggle_connection outcome now app) = signal_quality_label app
   /\ plot_curve (toggle_connection outcome now app) = plot_curve app)
  /\ (serial_open app = false ->
      toggle_connection Opened now app
      = mkApp true true [] now 0 [] (hr_label app) (hr_style app)
              (signal_quality_label app) (plot_curve app)
              (debug_log app ++ [Connecting]) (heart_rate_runs app))
  /\ (serial_open app = false ->
      data_buffer (toggle_connection OpenFails now app) = data_buffer app
      /\ heart_rate_history (toggle_connection OpenFails now app) = heart_rate_history app
      /\ serial_open (toggle_connection OpenFails now app) = false
      /\ timer_active (toggle_connection OpenFails now app) = timer_active app)
  /\ (serial_open app = true ->
      serial_open (toggle_connection outcome now app) = false
      /\ timer_active (toggle_connection outcome now app) = false
      /\ data_buffer (toggle_connection outcome now app) = data_buffer app
      /\ heart_rate_history (toggle_connection outcome now app) = heart_rate_history app).
Proof.
  unfold toggle_connection. destruct (serial_open app) eqn:O; cbn [negb].
  - repeat (conjs; intros); first [discriminate | reflexivity].
  - destruct outcome; repeat (conjs; intros);
      first [discriminate | reflexivity | exact O].
Qed.

(** X23. When the port opens but [reset_input_buffer] raises, the port
    stays open while the timer does not run and nothing was reset: no
    data is acquired, and the next press of the button, whatever would
    come of opening, closes the port instead of connecting. *)
Theorem reset_failure_leaves_port_open (outcome : OpenOutcome) (now later : float)
        (app : ECGApp) :
  reachable app -> serial_open app = false ->
  serial_open (toggle_connection ResetFails now app) = true
  /\ timer_active (toggle_connection ResetFails now app) = false
  /\ data_buffer (toggle_connection ResetFails now app) = data_buffer app
  /\ data_count (toggle_connection ResetFails now app) = data_count app
  /\ heart_rate_history (toggle_connection ResetFails now app) = heart_rate_history app
  /\ last_update_time (toggle_connection ResetFails now app) = last_update_time app
  /\ serial_open (toggle_connection outcome later (toggle_connection ResetFails now app))
     = false
  /\ timer_active (toggle_connection outcome later (toggle_connection ResetFails now app))
     = false.
Proof.
  intros R O.
  assert (T : timer_active app = false).
  { destruct (timer_active app) eqn:T; [|reflexivity].
    pose proof (reachable_timer app R T). congruence. }
  unfold toggle_connection. rewrite O. cbn. rewrite T. conjs; reflexivity.
Qed.

Lemma reset_failure_leaves_port_open_witness :
  reachable (init 0) /\ serial_open (init 0) = false
  /\ serial_open (toggle_connection ResetFails 1 (init 0)) = true
  /\ timer_active (toggle_connection ResetFails 1 (init 0)) = false
  /\ serial_open (toggle_connection Opened 2 (toggle_connection ResetFails 1 (init 0)))
     = false.
Proof.
  pose proof (reset_failure_leaves_port_open Opened 1 2 (init 0) (reach_init 0) eq_refl)
    as (A & B & _ & _ & _ & _ & C & _).
  split; [apply reach_init|]. split; [reflexivity|].
  split; [exact A|]. split; [exact B | exact C].
Defined.

(** ** [find_pico_port] *)

Lemma startswith_spec (prefix s : Py.str) :
  startswith prefix s = true <-> exists rest, s = prefix ++ rest.
Proof.
  revert s. induction prefix as [|c p IH]; intros s; cbn [startswith].
  - split; [intros _; now exists s | reflexivity].
  - destruct s as [|d s].
    + split; [discriminate | intros (rest & E); discriminate].
    + rewrite andb_true_iff, Ascii.eqb_eq, IH. split.
      * intros (-> & rest & ->). now exists rest.
      * intros (rest & E). injection E as -> ->. split; [reflexivity | now exists rest].
Qed.

(** [str_contains] is the substring test of Python's [in]. *)
Lemma str_contains_spec (needle hay : Py.str) :
  str_contains needle hay = true
  <-> exists before after, hay = before ++ needle ++ after.
Proof.
  induction hay as [|c hay IH]; cbn [str_contains]; rewrite orb_true_iff, startswith_spec.
  - split.
    + intros [(rest & E)|F]; [|discriminate]. now exists [], rest.
    + intros (before & after & E). left.
      destruct before; [now exists after | discriminate].
  - rewrite IH. split.
    + intros [(rest & E)|(before & after & ->)].
      * now exists [], rest.
      * now exists (c :: before), after.
    + intros (before & after & E). destruct before as [|d before].
      * left. now exists after.
      * right. injection E as -> ->. now exists before, after.
Qed.

Lemma find_none_all {A} (f : A -> bool) (l : list A) :
  find f l = None <-> Forall (fun x => f x = false) l.
Proof.
  induction l as [|x l IH]; cbn [find].
  - split; [constructor | reflexivity].
  - destruct (f x) eqn:E.
    + split; [discriminate | intros H; inversion H; congruence].
    + rewrite IH. split; [now constructor | intros H; now inversion H].
Qed.

Lemma find_first {A} (f : A -> bool) (before : list A) (x : A) (after : list A) :
  Forall (fun y => f y = false) before -> f x = true ->
  find f (before ++ x :: after) = Some x.
Proof.
  induction 1 as [|y l Hy _ IH]; intros Hx; cbn [app find].
  - now rewrite Hx.
  - rewrite Hy. now apply IH.
Qed.

(** X21. [find_pico_port] returns nothing exactly when no port is
    listed.  Otherwise it returns the device of a listed port: of the
    first port whose text contains one of the three identifiers, and,
    when no port does, of the first port listed, Pico or not. *)
Theorem find_pico_port_result (ports : list PortInfo) :
  (find_pico_port ports = None <-> ports = [])
  /\ (forall d, find_pico_port ports = Some d ->
                exists port, In port ports /\ device port = d)
  /\ (forall before port after,
        ports = before ++ port :: after ->
        Forall (fun q => is_pico q = false) before -> is_pico port = true ->
        find_pico_port ports = Some (device port))
  /\ (Forall (fun q => is_pico q = false) ports ->
      find_pico_port ports = option_map device (hd_error ports))
  /\ (forall port,
        is_pico port = true
        <-> exists id before after,
              In id PICO_IDS /\ port_text port = before ++ id ++ after)
  /\ find_pico_port ports_example = Some (Py.of_string "COM7").
Proof.
  unfold find_pico_port. split; [|split; [|split; [|split; [|split]]]].
  - destruct (find is_pico ports) eqn:F.
    + split; [discriminate|]. intros ->. discriminate.
    + destruct ports; split; congruence.
  - intros d. destruct (find is_pico ports) as [port|] eqn:F.
    + intros E. injection E as <-. exists port. split; [|reflexivity].
      now apply find_some in F.
    + destruct ports as [|port rest]; [discriminate|].
      intros E. injection E as <-. exists port. split; [now left | reflexivity].
  - intros before port after -> Hb Hp. now rewrite (find_first _ _ _ _ Hb Hp).
  - intros Hall. apply find_none_all in Hall. rewrite Hall. now destruct ports.
  - intros port. unfold is_pico. rewrite existsb_exists. split.
    + intros (id & Hid & C). apply str_contains_spec in C as (b & a & E).
      now exists id, b, a.
    + intros (id & b & a & Hid & E). exists id. split; [exact Hid|].
      apply str_contains_spec. now exists b, a.
  - vm_compute. reflexivity.
Qed.

(** ** From the buffer to the estimate *)

(** X22. On a snapshot of 25 up to [MAX_POINTS] samples in which the
    detector finds 2 to 21 peaks, the estimate exists (the division
    never raises) and is the exact truncated quotient
    60 * SAMPLE_RATE * intervals / span whenever that or the estimate
    lies within the bounds. *)
Theorem snapshot_estimate_is_exact (data : list Z) :
  25 <= Z.of_nat (length data) <= MAX_POINTS ->
  2 <= Z.of_nat (length (find_peaks (filtered_of data))) <= MAX_INTERVALS + 1 ->
  exists h, heart_rate_of (find_peaks (filtered_of data)) = Some h
            /\ (MIN_HEART_RATE <= h <= MAX_HEART_RATE
                \/ MIN_HEART_RATE <= exact_bpm (find_peaks (filtered_of data))
                   <= MAX_HEART_RATE ->
                h = exact_bpm (find_peaks (filtered_of data))).
Proof. exact (detected_heart_rate data). Qed.

Lemma snapshot_estimate_is_exact_witness :
  25 <= Z.of_nat (length data_two_beats) <= MAX_POINTS
  /\ find_peaks (filtered_of data_two_beats) = [50; 150]
  /\ exists h, heart_rate_of (find_peaks (filtered_of data_two_beats)) = Some h
               /\ (MIN_HEART_RATE <= h <= MAX_HEART_RATE
                   \/ MIN_HEART_RATE <= exact_bpm (find_peaks (filtered_of data_two_beats))
                      <= MAX_HEART_RATE ->
                   h = exact_bpm (find_peaks (filtered_of data_two_beats))).
Proof.
  assert (L : 25 <= Z.of_nat (length data_two_beats) <= MAX_POINTS)
    by (split; vm_compute; discriminate).
  assert (P : find_peaks (filtered_of data_two_beats) = [50; 150])
    by (vm_compute; reflexivity).
  split; [exact L|]. split; [exact P|].
  apply (snapshot_estimate_is_exact data_two_beats L).
  rewrite P. split; vm_compute; discriminate.
Defined.
